(** * Actuarial Slackbot: a model of [app.py] and its specification

    The Flask application is embedded function by function.  Python
    values that reach the handlers through JSON are modelled by the
    inductive [value]; Python text is a [string] holding its UTF-8
    encoding.  Numbers are what numpy and Python compute with: 64-bit
    integers that wrap around, and binary64 floating-point numbers with
    their rounding, taken from the standard library's specification of
    IEEE 754 arithmetic ([spec_float] at precision 53).  A column of a
    spreadsheet holds integers, floating-point numbers or text.
    Exceptions,
    the three module-level session variables and the calls that leave
    the process (HTTP download, spreadsheet parsing, chat completion,
    message delivery, thread start) are threaded through the monad [M]:
    an outcome (a value or a raised exception) together with the session
    store and the log of outbound actions. *)

From Stdlib Require Import List String Ascii Bool Arith ZArith QArith Lia.
From Stdlib Require Import Qabs DecimalString SpecFloat.
Import ListNotations.

Set Warnings "-register-all".
Local Close Scope Q_scope.
Local Open Scope string_scope.

(* ================================================================= *)
(** ** Text *)

Definition nl : string := String "010"%char EmptyString.
Definition dquote : string := String "034"%char EmptyString.
Definition squote : string := String "039"%char EmptyString.

(** [s.startswith(p)] *)
Definition startswith (s p : string) : bool := String.prefix p s.

Fixpoint rev_string (s acc : string) : string :=
  match s with
  | EmptyString => acc
  | String c s' => rev_string s' (String c acc)
  end.

Definition reverse (s : string) : string := rev_string s EmptyString.

(** [s.endswith(p)] for one suffix, and for a tuple of suffixes. *)
Definition endswith (s p : string) : bool :=
  String.prefix (reverse p) (reverse s).

Definition endswith_any (s : string) (ps : list string) : bool :=
  existsb (endswith s) ps.

(** [needle in haystack] on text. *)
Fixpoint contains (haystack needle : string) : bool :=
  String.prefix needle haystack ||
  match haystack with
  | EmptyString => false
  | String _ rest => contains rest needle
  end.

(** [sep.join(parts)] *)
Definition join (sep : string) (parts : list string) : string :=
  String.concat sep parts.

(** Python's whitespace, as [str.isspace] classifies code points, read
    on the UTF-8 encoding.  One byte: TAB, LF, VT, FF, CR, FS, GS, RS,
    US and SPACE. *)
Definition is_space1 (c : ascii) : bool :=
  let n := nat_of_ascii c in
  (((9 <=? n) && (n <=? 13)) || ((28 <=? n) && (n <=? 32)))%nat.

(** Two bytes: U+0085 (C2 85) and U+00A0 (C2 A0). *)
Definition is_space2 (c1 c2 : ascii) : bool :=
  ((nat_of_ascii c1 =? 194) &&
   ((nat_of_ascii c2 =? 133) || (nat_of_ascii c2 =? 160)))%nat.

(** Three bytes: U+1680 (E1 9A 80), U+2000..U+200A (E2 80 80..8A),
    U+2028, U+2029 (E2 80 A8, A9), U+202F (E2 80 AF), U+205F (E2 81 9F)
    and U+3000 (E3 80 80). *)
Definition is_space3 (c1 c2 c3 : ascii) : bool :=
  let a := nat_of_ascii c1 in
  let b := nat_of_ascii c2 in
  let c := nat_of_ascii c3 in
  (((a =? 225) && (b =? 154) && (c =? 128)) ||
   ((a =? 226) && (b =? 128) &&
      (((128 <=? c) && (c <=? 138)) || (c =? 168) || (c =? 169) || (c =? 175))) ||
   ((a =? 226) && (b =? 129) && (c =? 159)) ||
   ((a =? 227) && (b =? 128) && (c =? 128)))%nat.

(** [s.lstrip()]: drop whitespace code points from the front. *)
Fixpoint lstrip (s : string) : string :=
  match s with
  | EmptyString => EmptyString
  | String c1 r1 =>
      if is_space1 c1 then lstrip r1
      else
        match r1 with
        | EmptyString => s
        | String c2 r2 =>
            if is_space2 c1 c2 then lstrip r2
            else
              match r2 with
              | EmptyString => s
              | String c3 r3 =>
                  if is_space3 c1 c2 c3 then lstrip r3 else s
              end
        end
  end.

(** The same scan on the reversed text, where the bytes of a code point
    arrive last byte first. *)
Fixpoint lstrip_reversed (s : string) : string :=
  match s with
  | EmptyString => EmptyString
  | String c1 r1 =>
      if is_space1 c1 then lstrip_reversed r1
      else
        match r1 with
        | EmptyString => s
        | String c2 r2 =>
            if is_space2 c2 c1 then lstrip_reversed r2
            else
              match r2 with
              | EmptyString => s
              | String c3 r3 =>
                  if is_space3 c3 c2 c1 then lstrip_reversed r3 else s
              end
        end
  end.

Definition rstrip (s : string) : string :=
  reverse (lstrip_reversed (reverse s)).

(** [s.strip()] *)
Definition strip (s : string) : string := rstrip (lstrip s).

(** A text made of whitespace code points only ([s.isspace()], or the
    empty text). *)
Fixpoint only_whitespace (s : string) : bool :=
  match s with
  | EmptyString => true
  | String c1 r1 =>
      if is_space1 c1 then only_whitespace r1
      else
        match r1 with
        | EmptyString => false
        | String c2 r2 =>
            if is_space2 c1 c2 then only_whitespace r2
            else
              match r2 with
              | EmptyString => false
              | String c3 r3 =>
                  if is_space3 c1 c2 c3 then only_whitespace r3 else false
              end
        end
  end.

(** ASCII lower-casing, for header names (which Flask compares without
    regard to case). *)
Definition lower_ascii (c : ascii) : ascii :=
  let n := nat_of_ascii c in
  if ((65 <=? n) && (n <=? 90))%nat then ascii_of_nat (n + 32) else c.

Fixpoint lower (s : string) : string :=
  match s with
  | EmptyString => EmptyString
  | String c r => String (lower_ascii c) (lower r)
  end.

(* ================================================================= *)
(** ** Numbers *)

(** A binary64 number (Python's [float], numpy's [float64]). *)
Definition float64 : Type := spec_float.

Definition float_div (x y : float64) : float64 := SFdiv 53 1024 x y.
Definition float_mul (x y : float64) : float64 := SFmul 53 1024 x y.

(** [x < y]; false when either is not a number. *)
Definition float_lt (x y : float64) : bool := SFltb x y.

(** [float(z)]: the nearest binary64 number, ties to even. *)
Definition float_of_Z (z : Z) : float64 := binary_normalize 53 1024 z 0 false.

(** A 64-bit signed integer after an overflow: the value modulo 2^64,
    in the range from -2^63 to 2^63 - 1. *)
Definition wrap64 (z : Z) : Z :=
  ((z + 9223372036854775808) mod 18446744073709551616 - 9223372036854775808)%Z.

(** A number as the code meets it: an integer (numpy's [int64], or
    Python's [0]) or a binary64 number. *)
Inductive number : Type :=
| Int (z : Z)
| Float (f : float64).

(** What a total or a field of a result can be: a number, or text (the
    total of a column of text). *)
Inductive scalar : Type :=
| Num (n : number)
| Str (t : string).

(** The operand of a binary64 operation: integers are converted. *)
Definition to_float (n : number) : float64 :=
  match n with
  | Int z => float_of_Z z
  | Float f => f
  end.

(** [n > 0] *)
Definition positive (n : number) : bool :=
  match n with
  | Int z => (0 <? z)%Z
  | Float f => float_lt (S754_zero false) f
  end.

(* ================================================================= *)
(** ** Python values, truthiness and exceptions *)

(** What [request.json] can hold, and so what flows into the handlers
    and into [LAST_UPLOADED_FILE]. *)
Inductive value : Type :=
| VNone
| VBool (b : bool)
| VInt (z : Z)
| VFloat (f : float64)
| VStr (s : string)
| VList (items : list value)
| VDict (entries : list (string * value)).

Definition dict (A : Type) : Type := list (string * A).

Fixpoint lookup {A : Type} (key : string) (d : dict A) : option A :=
  match d with
  | [] => None
  | (k, v) :: rest => if String.eqb k key then Some v else lookup key rest
  end.

Definition has_key {A : Type} (key : string) (d : dict A) : bool :=
  match lookup key d with Some _ => true | None => false end.

(** [bool(v)] *)
Definition truthy (v : value) : bool :=
  match v with
  | VNone => false
  | VBool b => b
  | VInt z => negb (Z.eqb z 0)
  | VFloat f => match f with S754_zero _ => false | _ => true end
  | VStr s => negb (String.eqb s EmptyString)
  | VList items => match items with [] => false | _ => true end
  | VDict entries => match entries with [] => false | _ => true end
  end.

(** The exceptions the code tells apart in its [except] clauses; every
    other subclass of [Exception] is [OtherException] with its class
    name.  [message] is [str(e)]. *)
Inductive exn : Type :=
| FileNotFoundError (message : string)
| KeyError (key_repr : string)
| RequestException (message : string)
| OtherException (class message : string).

Definition str_exn (e : exn) : string :=
  match e with
  | FileNotFoundError m => m
  | KeyError k => k
  | RequestException m => m
  | OtherException _ m => m
  end.

(** [KeyError(key)] for a text key; its [str] is the quoted key. *)
Definition key_error (key : string) : exn := KeyError (squote ++ key ++ squote).

Definition AttributeError (m : string) : exn := OtherException "AttributeError" m.
Definition TypeError (m : string) : exn := OtherException "TypeError" m.
Definition IndexError (m : string) : exn := OtherException "IndexError" m.
Definition ValueError (m : string) : exn := OtherException "ValueError" m.

(** [type(v).__name__], as it appears in the text of an
    [AttributeError] or [TypeError]. *)
Definition type_name (v : value) : string :=
  match v with
  | VNone => "NoneType"
  | VBool _ => "bool"
  | VInt _ => "int"
  | VFloat _ => "float"
  | VStr _ => "str"
  | VList _ => "list"
  | VDict _ => "dict"
  end.

Definition no_attribute (v : value) (attr : string) : exn :=
  AttributeError (squote ++ type_name v ++ squote ++ " object has no attribute "
                    ++ squote ++ attr ++ squote).

Definition string_of_nat (n : nat) : string :=
  NilEmpty.string_of_uint (Nat.to_uint n).

(* ================================================================= *)
(** ** Tables and ratio results *)

(** A column by its dtype: [int64], [float64], or [object] holding
    text.  A column of any other content (mixed cells, dates and the
    like) is given by what its [sum()] does: it raises, or it gives a
    total. *)
Inductive Series : Type :=
| Int64 (cells : list Z)
| Float64 (cells : list float64)
| Text (cells : list string)
| Object (total : exn + scalar).

(** A parsed spreadsheet: its named columns in sheet order and the
    number of rows. *)
Record DataFrame : Type := {
  data : dict Series;
  len : nat
}.

(** [df.columns] *)
Definition columns (df : DataFrame) : list string := map fst (data df).

(** [col in df.columns] *)
Definition in_columns (col : string) (df : DataFrame) : bool :=
  existsb (String.eqb col) (columns df).

(** The sum of an [int64] column: every addition wraps around. *)
Definition int64_sum (cells : list Z) : Z :=
  fold_left (fun acc x => wrap64 (acc + x)) cells 0%Z.

(** The dictionary [calculate_loss_ratio] returns: the success shape
    with its three totals and the count of rows, or the failure shape
    with its error text. *)
Inductive RatioResult : Type :=
| Success (premium claims loss_ratio : scalar) (num_policies : nat)
| Failure (error : string).

Definition success (r : RatioResult) : bool :=
  match r with Success _ _ _ _ => true | Failure _ => false end.

(* ================================================================= *)
(** ** Configuration, session state and the outside world *)

Definition EXCEL_FILE : string := "actuarial_sophisticated_sample.xlsx".
Definition LOSS_RATIO_THRESHOLD : float64 := float_of_Z 75.

(** [n > LOSS_RATIO_THRESHOLD]: an integer is above 75.0 exactly when it
    is above 75. *)
Definition above_threshold (n : number) : bool :=
  match n with
  | Int z => (75 <? z)%Z
  | Float f => float_lt LOSS_RATIO_THRESHOLD f
  end.
Definition SLACK_PLACEHOLDER : string := "YOUR_SLACK_BOT_TOKEN_HERE".
Definition DEEPSEEK_PLACEHOLDER : string := "YOUR_DEEPSEEK_API_KEY_HERE".

(** The three module-level variables. *)
Record SessionState : Type := {
  LAST_UPLOADED_FILE : value;
  LAST_UPLOADED_FILE_NAME : option string;
  LAST_ANALYSIS_RESULT : option RatioResult
}.

Definition initial_session : SessionState :=
  {| LAST_UPLOADED_FILE := VNone;
     LAST_UPLOADED_FILE_NAME := None;
     LAST_ANALYSIS_RESULT := None |}.

(** What [pd.read_excel] is given: a path, or the downloaded bytes. *)
Inductive excel_input : Type :=
| Path (path : string)
| BytesIO (content : string).

(** A [requests] response, as far as the code reads it. *)
Record Response : Type := {
  status_code : nat;
  reason : string;
  url : string;
  content : string
}.

(** Calls that leave the process, in the order they are made. *)
Inductive action : Type :=
| HttpGet (url authorization : string)
| ReadExcel (src : excel_input)
| ChatCompletion (system_message user_message : string) (max_tokens : nat)
| PostMessage (channel : value) (text : string)
| ThreadStart (question : string) (channel_id : value).

Record Store : Type := {
  session : SessionState;
  actions : list action
}.

Inductive Outcome (A : Type) : Type :=
| Return (a : A)
| Raise (e : exn).
Arguments Return {A} a.
Arguments Raise {A} e.

(** A computation: from the store before to an outcome and the store
    after.  A raised exception keeps the store as it was when raised. *)
Definition M (A : Type) : Type := Store -> Outcome A * Store.

Definition ret {A : Type} (a : A) : M A := fun s => (Return a, s).

Definition raise {A : Type} (e : exn) : M A := fun s => (Raise e, s).

Definition bind {A B : Type} (c : M A) (k : A -> M B) : M B :=
  fun s =>
    match c s with
    | (Return a, s') => k a s'
    | (Raise e, s') => (Raise e, s')
    end.

(** [try: body / except ...: handler] *)
Definition try_except {A : Type} (body : M A) (handler : exn -> M A) : M A :=
  fun s =>
    match body s with
    | (Return a, s') => (Return a, s')
    | (Raise e, s') => handler e s'
    end.

Definition get_session : M SessionState := fun s => (Return (session s), s).

Definition put_session (st : SessionState) : M unit :=
  fun s => (Return tt, {| session := st; actions := actions s |}).

Definition emit (a : action) : M unit :=
  fun s => (Return tt, {| session := session s; actions := actions s ++ [a] |}).

(** The answer of an outside service: a value, or the exception the
    call raises. *)
Definition of_answer {A : Type} (r : exn + A) : M A :=
  match r with
  | inl e => raise e
  | inr a => ret a
  end.

Declare Scope monad_scope.
Delimit Scope monad_scope with monad.
Notation "x <- c1 ;; c2" := (bind c1 (fun x => c2))
  (at level 61, c1 at next level, right associativity) : monad_scope.
Notation "c1 ;; c2" := (bind c1 (fun _ => c2))
  (at level 61, right associativity) : monad_scope.
Local Open Scope monad_scope.

(** Credentials read from the process environment, and the services the
    code calls.  Each service answers a call with a value or with the
    exception it raises.  Two things numpy decides are taken from the
    environment as well: the total of a [float64] column (the order of
    its additions is numpy's own) and the text of the [TypeError] it
    raises when asked to divide with a text. *)
Record Environment : Type := {
  SLACK_BOT_TOKEN : string;
  DEEPSEEK_API_KEY : string;
  requests_get : string -> string -> exn + Response;
  pd_read_excel : excel_input -> exn + DataFrame;
  chat_completions_create : string -> string -> nat -> exn + string;
  chat_postMessage : value -> string -> exn + unit;
  float64_sum : list float64 -> float64;
  truediv_error : scalar -> scalar -> string
}.

Section App.

Variable env : Environment.

(** [response.raise_for_status()] *)
Definition raise_for_status (response : Response) : M unit :=
  let code := status_code response in
  if ((400 <=? code) && (code <? 500))%nat then
    raise (RequestException
             (string_of_nat code ++ " Client Error: " ++ reason response
                ++ " for url: " ++ url response))
  else if ((500 <=? code) && (code <? 600))%nat then
    raise (RequestException
             (string_of_nat code ++ " Server Error: " ++ reason response
                ++ " for url: " ++ url response))
  else ret tt.

(** [df['name']]: the column, or [KeyError]. *)
Definition getitem (df : DataFrame) (name : string) : M Series :=
  match lookup name (data df) with
  | Some series => ret series
  | None => raise (key_error name)
  end.

(** The three ways the table is obtained (lines 41 to 52).  A truthy
    [file_source] that is no text has no [startswith]. *)
Definition load_table (file_source : value) : M DataFrame :=
  match file_source with
  | VStr s =>
      if truthy file_source && startswith s "http" then
        emit (HttpGet s ("Bearer " ++ SLACK_BOT_TOKEN env)) ;;
        response <- of_answer (requests_get env s ("Bearer " ++ SLACK_BOT_TOKEN env)) ;;
        raise_for_status response ;;
        emit (ReadExcel (BytesIO (content response))) ;;
        of_answer (pd_read_excel env (BytesIO (content response)))
      else if truthy file_source then
        emit (ReadExcel (Path s)) ;;
        of_answer (pd_read_excel env (Path s))
      else
        emit (ReadExcel (Path EXCEL_FILE)) ;;
        of_answer (pd_read_excel env (Path EXCEL_FILE))
  | _ =>
      if truthy file_source then raise (no_attribute file_source "startswith")
      else
        emit (ReadExcel (Path EXCEL_FILE)) ;;
        of_answer (pd_read_excel env (Path EXCEL_FILE))
  end.

Definition required_columns : list string := ["Premium"; "Claims"].

Definition missing_error (missing_columns : list string) : string :=
  "Missing required columns: " ++ join ", " missing_columns
    ++ ". File must have " ++ dquote ++ "Premium" ++ dquote ++ " and "
    ++ dquote ++ "Claims" ++ dquote ++ " columns.".

(** [series.sum()]: the wrapped total of an [int64] column, numpy's
    total of a [float64] column, the concatenation of a column of text
    (and the integer 0 when that column is empty). *)
Definition sum (series : Series) : exn + scalar :=
  match series with
  | Int64 cells => inr (Num (Int (int64_sum cells)))
  | Float64 cells => inr (Num (Float (float64_sum env cells)))
  | Text [] => inr (Num (Int 0))
  | Text cells => inr (Str (String.concat EmptyString cells))
  | Object total => total
  end.

(** [total > 0]: a text cannot be compared with a number. *)
Definition gt_zero (total : scalar) : M bool :=
  match total with
  | Num n => ret (positive n)
  | Str _ =>
      raise (TypeError "'>' not supported between instances of 'str' and 'int'")
  end.

(** [x / y]: numbers are divided as binary64 numbers, whatever their
    kind; a text makes numpy raise [TypeError]. *)
Definition truediv (x y : scalar) : M float64 :=
  match x, y with
  | Num a, Num b => ret (float_div (to_float a) (to_float b))
  | _, _ => raise (TypeError (truediv_error env x y))
  end.

(** The body of the [try] block, after the table is loaded (lines 54
    to 76). *)
Definition analyse (df : DataFrame) : M RatioResult :=
  let missing_columns :=
    filter (fun col => negb (in_columns col df)) required_columns in
  match missing_columns with
  | _ :: _ => ret (Failure (missing_error missing_columns))
  | [] =>
      premium_series <- getitem df "Premium" ;;
      total_premium <- of_answer (sum premium_series) ;;
      claims_series <- getitem df "Claims" ;;
      total_claims <- of_answer (sum claims_series) ;;
      is_positive <- gt_zero total_premium ;;
      loss_ratio <- (if is_positive
                     then
                       quotient <- truediv total_claims total_premium ;;
                       ret (Num (Float (float_mul quotient (float_of_Z 100))))
                     else ret (Num (Int 0))) ;;
      ret (Success total_premium total_claims loss_ratio (len df))
  end.

(** The four [except] clauses, in order (lines 78 to 85). *)
Definition on_exception (e : exn) : M RatioResult :=
  match e with
  | FileNotFoundError _ => ret (Failure "Excel file not found")
  | KeyError _ => ret (Failure ("Missing column in Excel: " ++ str_exn e))
  | RequestException _ => ret (Failure ("Failed to download file: " ++ str_exn e))
  | OtherException _ _ => ret (Failure ("Error reading file: " ++ str_exn e))
  end.

Definition calculate_loss_ratio (file_source : value) : M RatioResult :=
  try_except
    (df <- load_table file_source ;;
     analyse df)
    on_exception.

End App.

(* ================================================================= *)
(** ** Number formatting *)

(** The nearest integer to a non-negative number, ties to even: the
    rounding of the [f] presentation type. *)
Definition round_half_even (x : Q) : Z :=
  let n := Qnum x in
  let d := Zpos (Qden x) in
  let q := (n / d)%Z in
  let r := (n mod d)%Z in
  match (2 * r ?= d)%Z with
  | Lt => q
  | Gt => (q + 1)%Z
  | Eq => if Z.even q then q else (q + 1)%Z
  end.

Definition digits (z : Z) : string :=
  NilEmpty.string_of_uint (N.to_uint (Z.to_N z)).

(** The exact absolute value of a finite binary64 number. *)
Definition magnitude (f : float64) : Q :=
  match f with
  | S754_finite _ m e =>
      match e with
      | Zneg p => Zpos m # Pos.pow 2 p
      | _ => (Zpos m * 2 ^ e)%Z # 1
      end
  | _ => 0%Q
  end.

(** The sign bit: set for negative numbers and for the negative zero. *)
Definition sign_bit (f : float64) : bool :=
  match f with
  | S754_zero s | S754_infinity s | S754_finite s _ _ => s
  | S754_nan => false
  end.

Definition sign (f : float64) : string :=
  if sign_bit f then "-" else EmptyString.

(** Commas between groups of three digits, on the digits in reverse. *)
Fixpoint group3 (rev_digits : list ascii) : list ascii :=
  match rev_digits with
  | a :: b :: c :: ((_ :: _) as rest) => a :: b :: c :: ","%char :: group3 rest
  | _ => rev_digits
  end.

Definition thousands (s : string) : string :=
  string_of_list_ascii (rev (group3 (rev (list_ascii_of_string s)))).

(** [f"{x:,.0f}"] for a binary64 number: its exact value rounded to an
    integer, ties to even. *)
Definition float_comma_0f (f : float64) : string :=
  match f with
  | S754_nan => "nan"
  | S754_infinity s => if s then "-inf" else "inf"
  | _ => sign f ++ thousands (digits (round_half_even (magnitude f)))
  end.

(** [f"{x:.1f}"] for a binary64 number. *)
Definition float_1f (f : float64) : string :=
  match f with
  | S754_nan => "nan"
  | S754_infinity s => if s then "-inf" else "inf"
  | _ =>
      let tenths := round_half_even (magnitude f * 10)%Q in
      sign f ++ digits (tenths / 10)%Z ++ "." ++ digits (tenths mod 10)%Z
  end.

(** The two formats on a number: an integer is converted to binary64
    first. *)
Definition comma_0f (n : number) : string := float_comma_0f (to_float n).
Definition one_f (n : number) : string := float_1f (to_float n).

Definition unknown_format_code : exn :=
  ValueError "Unknown format code 'f' for object of type 'str'".

(** [f"{v:,.0f}"] and [f"{v:.1f}"] on a field of a result: a text has
    no [f] format. *)
Definition format_comma_0f (v : scalar) : M string :=
  match v with
  | Num n => ret (comma_0f n)
  | Str _ => raise unknown_format_code
  end.

Definition format_1f (v : scalar) : M string :=
  match v with
  | Num n => ret (one_f n)
  | Str _ => raise unknown_format_code
  end.

(** [v > LOSS_RATIO_THRESHOLD] on a field of a result. *)
Definition gt_threshold (v : scalar) : M bool :=
  match v with
  | Num n => ret (above_threshold n)
  | Str _ =>
      raise (TypeError "'>' not supported between instances of 'str' and 'float'")
  end.

(** [f"{LOSS_RATIO_THRESHOLD}"] *)
Definition threshold_text : string := "75.0".

(* ================================================================= *)
(** ** Commentary, formatting and delivery *)

(** The dictionary [format_slack_response] returns. *)
Record SlackResponse : Type := {
  response_type : string;
  text : string
}.

(** [jsonify(response)] *)
Definition jsonify (r : SlackResponse) : value :=
  VDict [("response_type", VStr (response_type r)); ("text", VStr (text r))].

(** The four facts and the threshold, as both prompts list them, given
    the three formatted numbers. *)
Definition facts (premium claims loss_ratio : string) (num_policies : nat) : string :=
  "- Total Premium: $" ++ premium ++ nl ++
  "- Total Claims: $" ++ claims ++ nl ++
  "- Loss Ratio: " ++ loss_ratio ++ "%" ++ nl ++
  "- Number of Policies: " ++ string_of_nat num_policies ++ nl ++
  "- Risk Threshold: " ++ threshold_text ++ "%" ++ nl.

Definition insight_prompt (premium claims loss_ratio : string) (num_policies : nat)
    : string :=
  "You are an expert actuary analyzing insurance portfolio data." ++ nl ++
  nl ++
  "Analysis Results:" ++ nl ++
  facts premium claims loss_ratio num_policies ++
  nl ++
  "Provide a brief, professional 2-3 sentence insight about:" ++ nl ++
  "1. What this loss ratio indicates about portfolio health" ++ nl ++
  "2. Whether it's above/below threshold and what that means" ++ nl ++
  "3. One actionable recommendation" ++ nl ++
  nl ++
  "Keep it concise and business-focused.".

Definition insight_system : string :=
  "You are an expert actuarial analyst providing concise, actionable insights.".

Definition answer_prompt (question : string)
    (premium claims loss_ratio : string) (num_policies : nat) : string :=
  "You are an expert actuary. A user is asking about their portfolio analysis." ++ nl ++
  nl ++
  "Current Analysis Context:" ++ nl ++
  facts premium claims loss_ratio num_policies ++
  nl ++
  "User Question: " ++ question ++ nl ++
  nl ++
  "Provide a clear, professional answer based on the analysis data above. Be specific and reference the actual numbers. Keep it under 4 sentences.".

Definition answer_system : string :=
  "You are an expert actuarial consultant providing clear, data-driven answers.".

Definition no_context_answer : string :=
  "I don't have any analysis data to reference. Please upload an Excel file or run /lossratio first.".

(** The line added when the ratio is above the threshold. *)
Definition warning_line : string :=
  nl ++ "⚠️ *Warning:* Loss ratio exceeds " ++ threshold_text ++ "% threshold!".

(** The template of the basic message (lines 194 to 200), with its six
    holes. *)
Definition analysis_message
    (file_header premium_formatted claims_formatted loss_ratio : string)
    (num_policies : nat) (warning : string) : string :=
  file_header ++ "📊 *Actuarial Loss Ratio Analysis*" ++ nl ++
  nl ++
  "*Premium:* " ++ premium_formatted ++ nl ++
  "*Claims:* " ++ claims_formatted ++ nl ++
  "*Loss Ratio:* " ++ loss_ratio ++ "%" ++ nl ++
  "*Policies Analyzed:* " ++ string_of_nat num_policies ++ warning ++ nl.

Section Messaging.

Variable env : Environment.

(** The completion call both commentary operations make, and the
    [.strip()] of the text it returns. *)
Definition complete (system_message user_message : string) (max_tokens : nat) : M string :=
  emit (ChatCompletion system_message user_message max_tokens) ;;
  content <- of_answer (chat_completions_create env system_message user_message max_tokens) ;;
  ret (strip content).

Definition generate_ai_insights (result : RatioResult) : M (option string) :=
  match result with
  | Failure _ => ret None
  | Success premium claims loss_ratio num_policies =>
      try_except
        (premium_text <- format_comma_0f premium ;;
         claims_text <- format_comma_0f claims ;;
         ratio_text <- format_1f loss_ratio ;;
         insight <- complete insight_system
                      (insight_prompt premium_text claims_text ratio_text
                         num_policies) 200 ;;
         ret (Some insight))
        (fun _ => ret None)
  end.

Definition answer_actuarial_question (question : string)
    (context_result : option RatioResult) : M string :=
  match context_result with
  | Some (Success premium claims loss_ratio num_policies) =>
      try_except
        (premium_text <- format_comma_0f premium ;;
         claims_text <- format_comma_0f claims ;;
         ratio_text <- format_1f loss_ratio ;;
         complete answer_system
           (answer_prompt question premium_text claims_text ratio_text
              num_policies) 300)
        (fun e => ret ("Sorry, I couldn't generate an answer. Error: " ++ str_exn e))
  | _ => ret no_context_answer
  end.

(** [if file_name] *)
Definition given (file_name : option string) : option string :=
  match file_name with
  | Some name => if String.eqb name EmptyString then None else Some name
  | None => None
  end.

Definition format_slack_response (result : RatioResult)
    (file_name : option string) (include_ai : bool) : M SlackResponse :=
  match result with
  | Failure error =>
      let file_info :=
        match given file_name with
        | Some name => " (" ++ name ++ ")"
        | None => EmptyString
        end in
      ret {| response_type := "in_channel";
             text := "❌ *Error" ++ file_info ++ ":* " ++ error |}
  | Success premium claims loss_ratio num_policies =>
      exceeds <- gt_threshold loss_ratio ;;
      let warning := if exceeds then warning_line else EmptyString in
      premium_text <- format_comma_0f premium ;;
      let premium_formatted := "$" ++ premium_text in
      claims_text <- format_comma_0f claims ;;
      let claims_formatted := "$" ++ claims_text in
      let file_header :=
        match given file_name with
        | Some name => "📄 *Analysis of: " ++ name ++ "*" ++ nl ++ nl
        | None => EmptyString
        end in
      ratio_text <- format_1f loss_ratio ;;
      let message :=
        analysis_message file_header premium_formatted claims_formatted
          ratio_text num_policies warning in
      if include_ai && negb (String.eqb (DEEPSEEK_API_KEY env) DEEPSEEK_PLACEHOLDER) then
        ai_insight <- generate_ai_insights result ;;
        match ai_insight with
        | Some insight =>
            if String.eqb insight EmptyString then
              ret {| response_type := "in_channel"; text := message |}
            else
              ret {| response_type := "in_channel";
                     text := message ++ nl ++ "🤖 *AI Insights:*" ++ nl
                               ++ "_" ++ insight ++ "_" |}
        | None => ret {| response_type := "in_channel"; text := message |}
        end
      else ret {| response_type := "in_channel"; text := message |}
  end.

Definition send_message_to_channel (channel_id : value) (result : RatioResult)
    (file_name : option string) (include_ai : bool) : M unit :=
  try_except
    (response <- format_slack_response result file_name include_ai ;;
     emit (PostMessage channel_id (text response)) ;;
     of_answer (chat_postMessage env channel_id (text response)))
    (fun _ => ret tt).

End Messaging.

(* ================================================================= *)
(** ** Operations on dynamically typed values *)

(** The first code point of a text, by the length its lead byte
    announces. *)
Definition first_char (s : string) : string :=
  match s with
  | EmptyString => EmptyString
  | String c _ =>
      let n := nat_of_ascii c in
      if (n <? 192)%nat then String.substring 0 1 s
      else if (n <? 224)%nat then String.substring 0 2 s
      else if (n <? 240)%nat then String.substring 0 3 s
      else String.substring 0 4 s
  end.

Definition is_text (key : string) (v : value) : bool :=
  match v with
  | VStr s => String.eqb s key
  | _ => false
  end.

(** [key in container] *)
Definition py_in (key : string) (container : value) : M bool :=
  match container with
  | VDict entries => ret (has_key key entries)
  | VList items => ret (existsb (is_text key) items)
  | VStr s => ret (contains s key)
  | _ => raise (TypeError ("argument of type " ++ squote ++ type_name container
                             ++ squote ++ " is not iterable"))
  end.

(** [container.get(key, default)] *)
Definition py_get (container : value) (key : string) (default : value) : M value :=
  match container with
  | VDict entries =>
      ret (match lookup key entries with Some v => v | None => default end)
  | _ => raise (no_attribute container "get")
  end.

(** [container[key]] for a text key. *)
Definition py_getitem (container : value) (key : string) : M value :=
  match container with
  | VDict entries =>
      match lookup key entries with
      | Some v => ret v
      | None => raise (key_error key)
      end
  | VList _ => raise (TypeError "list indices must be integers or slices, not str")
  | VStr _ => raise (TypeError "string indices must be integers, not 'str'")
  | _ => raise (TypeError (squote ++ type_name container ++ squote
                             ++ " object is not subscriptable"))
  end.

(** [container[0]] *)
Definition py_first (container : value) : M value :=
  match container with
  | VList (v :: _) => ret v
  | VList [] => raise (IndexError "list index out of range")
  | VStr s =>
      if String.eqb s EmptyString then raise (IndexError "string index out of range")
      else ret (VStr (first_char s))
  | VDict _ => raise (KeyError "0")
  | _ => raise (TypeError (squote ++ type_name container ++ squote
                             ++ " object is not subscriptable"))
  end.

(* ================================================================= *)
(** ** The endpoints *)

(** What the handlers read of a Flask request. *)
Record Request : Type := {
  json : value;
  headers : dict string;
  form : dict string
}.

(** [request.headers.get(name)]: header names match without regard to
    case. *)
Fixpoint headers_get (name : string) (hs : dict string) : option string :=
  match hs with
  | [] => None
  | (k, v) :: rest =>
      if String.eqb (lower k) (lower name) then Some v else headers_get name rest
  end.

(** [request.form.get(name, default)] *)
Definition form_get (name default : string) (f : dict string) : string :=
  match lookup name f with
  | Some v => v
  | None => default
  end.

(** [if request.headers.get('X-Slack-Retry-Num')]: the header is there
    and not empty. *)
Definition is_retry (request : Request) : bool :=
  match headers_get "X-Slack-Retry-Num" (headers request) with
  | Some v => negb (String.eqb v EmptyString)
  | None => false
  end.

Definition ok : value := VDict [("status", VStr "ok")].

Definition set_LAST_UPLOADED_FILE (v : value) : M unit :=
  st <- get_session ;;
  put_session {| LAST_UPLOADED_FILE := v;
                 LAST_UPLOADED_FILE_NAME := LAST_UPLOADED_FILE_NAME st;
                 LAST_ANALYSIS_RESULT := LAST_ANALYSIS_RESULT st |}.

Definition set_LAST_UPLOADED_FILE_NAME (name : string) : M unit :=
  st <- get_session ;;
  put_session {| LAST_UPLOADED_FILE := LAST_UPLOADED_FILE st;
                 LAST_UPLOADED_FILE_NAME := Some name;
                 LAST_ANALYSIS_RESULT := LAST_ANALYSIS_RESULT st |}.

Definition set_LAST_ANALYSIS_RESULT (result : RatioResult) : M unit :=
  st <- get_session ;;
  put_session {| LAST_UPLOADED_FILE := LAST_UPLOADED_FILE st;
                 LAST_UPLOADED_FILE_NAME := LAST_UPLOADED_FILE_NAME st;
                 LAST_ANALYSIS_RESULT := Some result |}.

Definition spreadsheet_extensions : list string := [".xlsx"; ".xls"].

Definition not_excel_error (file_name : string) : string :=
  "Please upload an Excel file (.xlsx or .xls). You uploaded: " ++ file_name.

Definition ask_a_question : string :=
  "❓ Please ask a question! Example: `/explain why is the loss ratio high?`".

Definition no_analysis_data : string :=
  "⚠️ No analysis data available. Please upload a file or run `/lossratio` first.".

Definition ephemeral (message : string) : value :=
  VDict [("response_type", VStr "ephemeral"); ("text", VStr message)].

Section Endpoints.

Variable env : Environment.

(** The file-share branch of [slack_events] (lines 259 to 289). *)
Definition handle_file_share (event : value) : M unit :=
  files <- py_getitem event "files" ;;
  file_info <- py_first files ;;
  file_url <- py_get file_info "url_private" VNone ;;
  file_name <- py_get file_info "name" (VStr "unknown") ;;
  match file_name with
  | VStr name =>
      if endswith_any name spreadsheet_extensions then
        set_LAST_UPLOADED_FILE file_url ;;
        set_LAST_UPLOADED_FILE_NAME name ;;
        result <- calculate_loss_ratio env file_url ;;
        set_LAST_ANALYSIS_RESULT result ;;
        channel <- py_getitem event "channel" ;;
        send_message_to_channel env channel result (Some name) true
      else
        let error_result := Failure (not_excel_error name) in
        channel <- py_getitem event "channel" ;;
        send_message_to_channel env channel error_result None false
  | _ => raise (no_attribute file_name "endswith")
  end.

(** [POST /slack/events] *)
Definition slack_events (request : Request) : M value :=
  let data := json request in
  has_challenge <- py_in "challenge" data ;;
  if has_challenge then
    challenge <- py_getitem data "challenge" ;;
    ret (VDict [("challenge", challenge)])
  else
    if is_retry request then ret ok
    else
      event <- py_get data "event" (VDict []) ;;
      event_type <- py_get event "type" VNone ;;
      has_files <- (if is_text "message" event_type
                    then py_in "files" event else ret false) ;;
      if has_files then
        handle_file_share event ;;
        ret ok
      else ret ok.

(** [POST /lossratio] *)
Definition lossratio_command : M value :=
  st <- get_session ;;
  source <- (if truthy (LAST_UPLOADED_FILE st)
             then
               result <- calculate_loss_ratio env (LAST_UPLOADED_FILE st) ;;
               ret (result, LAST_UPLOADED_FILE_NAME st)
             else
               result <- calculate_loss_ratio env VNone ;;
               ret (result, None)) ;;
  let (result, file_name) := source in
  set_LAST_ANALYSIS_RESULT result ;;
  response <- format_slack_response env result file_name true ;;
  ret (jsonify response).

(** The body of the background thread of [explain_command]. *)
Definition generate_and_post_answer (question : string) (channel_id : value) : M unit :=
  try_except
    (st <- get_session ;;
     answer <- answer_actuarial_question env question (LAST_ANALYSIS_RESULT st) ;;
     let message := "🤖 *AI Answer:*" ++ nl ++ answer in
     emit (PostMessage channel_id message) ;;
     of_answer (chat_postMessage env channel_id message))
    (fun _ => ret tt).

(** [POST /explain] *)
Definition explain_command (request : Request) : M value :=
  let question := strip (form_get "text" EmptyString (form request)) in
  let channel_id :=
    match lookup "channel_id" (form request) with
    | Some c => VStr c
    | None => VNone
    end in
  if String.eqb question EmptyString then ret (ephemeral ask_a_question)
  else
    st <- get_session ;;
    match LAST_ANALYSIS_RESULT st with
    | Some (Success _ _ _ _) =>
        let immediate_response :=
          VDict [("response_type", VStr "in_channel");
                 ("text", VStr ("❓ *Question:* " ++ question ++ nl ++ nl
                                  ++ "🤖 _Thinking..._"))] in
        emit (ThreadStart question channel_id) ;;
        ret immediate_response
    | _ => ret (ephemeral no_analysis_data)
    end.

End Endpoints.

(* ================================================================= *)
(** ** Vocabulary of the specification *)

(** A column of numbers. *)
Definition numeric (series : Series) : bool :=
  match series with
  | Int64 _ | Float64 _ => true
  | Text _ | Object _ => false
  end.

(** The total of a column of integers as arithmetic has it, without
    the 64-bit wrap-around. *)
Definition exact_total (cells : list Z) : Z := fold_left Z.add cells 0%Z.

(** A successful result all of whose fields are numbers: the Ratio
    Result of the specification. *)
Definition numbers (premium claims loss_ratio : number) (num_policies : nat)
    : RatioResult :=
  Success (Num premium) (Num claims) (Num loss_ratio) num_policies.

(** The ratio line 68 computes from two numeric totals with a positive
    premium: a binary64 division and a binary64 multiplication. *)
Definition percentage (claims premium : number) : float64 :=
  float_mul (float_div (to_float claims) (to_float premium)) (float_of_Z 100).

(** The message of a successful result up to and including the count of
    policies, that is, up to the place of the warning. *)
Definition message_head (file_name : option string)
    (premium claims loss_ratio : number) (num_policies : nat) : string :=
  match given file_name with
  | Some name => "📄 *Analysis of: " ++ name ++ "*" ++ nl ++ nl
  | None => EmptyString
  end ++
  "📊 *Actuarial Loss Ratio Analysis*" ++ nl ++
  nl ++
  "*Premium:* $" ++ comma_0f premium ++ nl ++
  "*Claims:* $" ++ comma_0f claims ++ nl ++
  "*Loss Ratio:* " ++ one_f loss_ratio ++ "%" ++ nl ++
  "*Policies Analyzed:* " ++ string_of_nat num_policies.

(** The two prompts for a result whose fields are numbers. *)
Definition insight_prompt_for (premium claims loss_ratio : number)
    (num_policies : nat) : string :=
  insight_prompt (comma_0f premium) (comma_0f claims) (one_f loss_ratio) num_policies.

Definition answer_prompt_for (question : string) (premium claims loss_ratio : number)
    (num_policies : nat) : string :=
  answer_prompt question (comma_0f premium) (comma_0f claims) (one_f loss_ratio)
    num_policies.

(** "The ratio strictly exceeds the threshold of 75.0": an integer from
    76 on, or a binary64 number that compares above the binary64 number
    75 = 5277655813324800 * 2^-46 (which no NaN does). *)
Definition exceeds_75 (loss_ratio : number) : bool :=
  match loss_ratio with
  | Int z => (76 <=? z)%Z
  | Float f => SFltb (S754_finite false 5277655813324800 (-46)) f
  end.

(** A result the f-strings of the formatter and of the two prompts can
    print: a failure, or a success whose three figures are numbers. *)
Definition printable (r : RatioResult) : bool :=
  match r with
  | Failure _ => true
  | Success (Num _) (Num _) (Num _) _ => true
  | Success _ _ _ _ => false
  end.

(** The formatter was asked for commentary and a completion key is
    configured. *)
Definition commentary_enabled (env : Environment) (include_ai : bool) : bool :=
  include_ai && negb (String.eqb (DEEPSEEK_API_KEY env) DEEPSEEK_PLACEHOLDER).

(** The text holds no byte E2, the first byte of the warning sign
    (and of every code point from U+2000 to U+2FFF). *)
Fixpoint sign_free (s : string) : bool :=
  match s with
  | EmptyString => true
  | String c r => negb (Ascii.eqb c "226"%char) && sign_free r
  end.

Definition sign_free_name (file_name : option string) : bool :=
  match file_name with
  | Some name => sign_free name
  | None => true
  end.

(** What the completion service says about a result holds no byte E2
    (or the service says nothing). *)
Definition commentary_sign_free (env : Environment)
    (premium claims loss_ratio : number) (num_policies : nat) : bool :=
  match chat_completions_create env insight_system
          (insight_prompt_for premium claims loss_ratio num_policies) 200 with
  | inr content => sign_free content
  | inl _ => true
  end.

(** A computation that leaves the three session variables as they
    were, whatever it sends. *)
Definition keeps_session {A : Type} (c : M A) : Prop :=
  forall s, session (snd (c s)) = session s.

(** The action log after a step extends the log before it. *)
Definition sent_since (s s1 : Store) (new : list action) : Prop :=
  actions s1 = (actions s ++ new)%list.

(** The store a request starts from: some session, nothing sent yet. *)
Definition fresh (st : SessionState) : Store := {| session := st; actions := [] |}.

(* ================================================================= *)
(** ** Sample tables and environments *)

Module Samples.

(** A sheet with two columns of integers. *)
Definition table (premium claims : list Z) : DataFrame :=
  {| data := [("Premium", Int64 premium); ("Claims", Int64 claims)];
     len := List.length premium |}.

(** Premium=[1000,2000], Claims=[500,1900]. *)
Definition high : DataFrame := table [1000; 2000]%Z [500; 1900]%Z.

(** Premium=[1000], Claims=[100]. *)
Definition low : DataFrame := table [1000]%Z [100]%Z.

(** Premium=[400], Claims=[245]: the ratio is not 61.25 in binary64. *)
Definition inexact : DataFrame := table [400]%Z [245]%Z.

(** One refunded policy: a negative premium and a negative claim. *)
Definition refund : DataFrame := table [-5]%Z [-3]%Z.

(** Two premiums of 2^62 each: their total does not fit 64 bits. *)
Definition huge : DataFrame :=
  table [4611686018427387904; 4611686018427387904]%Z [1; 1]%Z.

(** Three claims of 2^62 each against a premium of 1. *)
Definition huge_claims : DataFrame :=
  table [1; 0; 0]%Z
        [4611686018427387904; 4611686018427387904; 4611686018427387904]%Z.

(** A sheet whose Premium cells are text. *)
Definition text_premium : DataFrame :=
  {| data := [("Premium", Text ["high"; "low"]); ("Claims", Int64 [500; 1900]%Z)];
     len := 2 |}.

(** A sheet of refunds whose Claims cells are text. *)
Definition text_claims : DataFrame :=
  {| data := [("Premium", Int64 [-5; 5]%Z); ("Claims", Text ["n/a"; "n/a"])];
     len := 2 |}.

(** A sheet that has a Premium column only. *)
Definition no_claims : DataFrame :=
  {| data := [("Premium", Int64 [1000]%Z); ("Paid", Int64 [100]%Z)]; len := 1 |}.

(** A sheet that has a Claims column only, and one that has neither. *)
Definition no_premium : DataFrame :=
  {| data := [("Claims", Int64 [100]%Z)]; len := 1 |}.

Definition neither : DataFrame :=
  {| data := [("Paid", Int64 [100]%Z)]; len := 1 |}.

(** One way numpy may add up a [float64] column: from left to right. *)
Definition left_to_right (cells : list float64) : float64 :=
  fold_left (SFadd 53 1024) cells (S754_zero false).

Definition no_loop (x y : scalar) : string :=
  "ufunc 'divide' did not contain a loop with signature matching types".

(** 80.0 and 10.0 as binary64 numbers. *)
Definition eighty : float64 := S754_finite false 5629499534213120 (-46).
Definition ten : float64 := S754_finite false 5629499534213120 (-49).

(** An environment with placeholder credentials in which every
    spreadsheet source holds [df], downloads succeed and the completion
    service is unreachable. *)
Definition serving (df : DataFrame) : Environment :=
  {| SLACK_BOT_TOKEN := SLACK_PLACEHOLDER;
     DEEPSEEK_API_KEY := DEEPSEEK_PLACEHOLDER;
     requests_get := fun u _ =>
       inr {| status_code := 200; reason := "OK"; url := u; content := "xlsx" |};
     pd_read_excel := fun _ => inr df;
     chat_completions_create := fun _ _ _ => inl (OtherException "APIConnectionError" "Connection error.");
     chat_postMessage := fun _ _ => inr tt;
     float64_sum := left_to_right;
     truediv_error := no_loop |}.

Definition csv_event : value :=
  VDict [("type", VStr "message");
         ("channel", VStr "C42");
         ("files", VList [VDict [("name", VStr "claims.csv");
                                 ("url_private", VStr "https://files.slack.com/claims.csv")]])].


(** The same upload, delivered again by Slack. *)
Definition csv_upload_retried : Request :=
  {| json := VDict [("event", csv_event)];
     headers := [("X-Slack-Retry-Num", "1")];
     form := [] |}.

Definition handshake : Request :=
  {| json := VDict [("challenge", VStr "abc123")]; headers := []; form := [] |}.

Definition explain_blank : Request :=
  {| json := VNone; headers := [];
     form := [("text", "   "); ("channel_id", "C42")] |}.

Definition explain_empty : Request :=
  {| json := VNone; headers := [];
     form := [("text", EmptyString); ("channel_id", "C42")] |}.

Definition stored : SessionState :=
  {| LAST_UPLOADED_FILE := VStr "https://files.slack.com/book.xlsx";
     LAST_UPLOADED_FILE_NAME := Some "book.xlsx";
     LAST_ANALYSIS_RESULT := Some (numbers (Int 1000) (Int 100) (Float ten) 1) |}.

(** A file name that spells out the warning line. *)
Definition spoof_name : string := "book" ++ warning_line ++ ".xlsx".

End Samples.

(* ================================================================= *)
(** ** The health endpoint *)

(** ["✅ Set" if token != placeholder else "❌ NOT SET"] *)
Definition credential_status (token placeholder : string) : string :=
  if String.eqb token placeholder then "❌ NOT SET" else "✅ Set".

(** [GET /health] *)
Definition health_check (env : Environment) : value :=
  VDict [("status", VStr "ok");
         ("message", VStr "Actuarial Slackbot is running!");
         ("slack_token",
          VStr (credential_status (SLACK_BOT_TOKEN env) SLACK_PLACEHOLDER));
         ("deepseek_api",
          VStr (credential_status (DEEPSEEK_API_KEY env) DEEPSEEK_PLACEHOLDER));
         ("deployed", VBool true)].

(* ================================================================= *)
(** ** Vocabulary for the log of outbound calls and for the session *)

Definition is_fetch (a : action) : bool :=
  match a with
  | HttpGet _ _ | ReadExcel _ => true
  | _ => false
  end.

Definition is_completion (a : action) : bool :=
  match a with
  | ChatCompletion _ _ _ => true
  | _ => false
  end.

Definition is_post (a : action) : bool :=
  match a with
  | PostMessage _ _ => true
  | _ => false
  end.

Definition is_thread (a : action) : bool :=
  match a with
  | ThreadStart _ _ => true
  | _ => false
  end.

(** How many messages a stretch of the log hands to the chat service. *)
Definition posts (log : list action) : nat := List.length (filter is_post log).

(** Whatever the store before, the computation only appends to the log,
    and what it appends satisfies [Q]. *)
Definition produces {A : Type} (Q : list action -> Prop) (c : M A) : Prop :=
  forall s, exists new, actions (snd (c s)) = (actions s ++ new)%list /\ Q new.

(** No thread is started and at most one message is posted. *)
Definition one_post_no_thread (log : list action) : Prop :=
  Forall (fun a => is_thread a = false) log /\ (posts log <= 1)%nat.

(** The stored locator and the stored name go together, and a stored
    name is the name of a spreadsheet. *)
Definition session_ok (st : SessionState) : Prop :=
  match LAST_UPLOADED_FILE_NAME st with
  | Some name => endswith_any name spreadsheet_extensions = true
  | None => LAST_UPLOADED_FILE st = VNone
  end.



(** The type of an event ([event.get('type')]). *)
Definition event_type (event : dict value) : value :=
  match lookup "type" event with
  | Some v => v
  | None => VNone
  end.



(** The store once a result is saved as the last analysis. *)
Definition with_result (s : Store) (result : RatioResult) : Store :=
  {| session :=
       {| LAST_UPLOADED_FILE := LAST_UPLOADED_FILE (session s);
          LAST_UPLOADED_FILE_NAME := LAST_UPLOADED_FILE_NAME (session s);
          LAST_ANALYSIS_RESULT := Some result |};
     actions := actions s |}.

(** The store once one more call is logged. *)
Definition logged (s : Store) (a : action) : Store :=
  {| session := session s; actions := actions s ++ [a] |}.

(** A download is made only for a text that starts with http, from the
    address the text gives, under the bearer token. *)
Definition fetch_for (env : Environment) (file_source : value) (a : action) : Prop :=
  is_fetch a = true /\
  forall address authorization,
    a = HttpGet address authorization ->
    file_source = VStr address /\
    startswith address "http" = true /\
    authorization = "Bearer " ++ SLACK_BOT_TOKEN env.

(** A computation under which a property of the session survives,
    whether it returns or raises. *)
Definition preserves {A : Type} (I : SessionState -> Prop) (c : M A) : Prop :=
  forall s, I (session s) -> I (session (snd (c s))).

(** A call that downloads, parses or asks for commentary. *)
Definition reads_or_comments (a : action) : Prop :=
  is_fetch a = true \/ is_completion a = true.

(* ================================================================= *)
(** ** More sample requests and environments *)

Module Scenarios.

Definition book : dict value :=
  [("name", VStr "book.xlsx");
   ("url_private", VStr "https://files.slack.com/book.xlsx")].

Definition xlsx_event : dict value :=
  [("type", VStr "message"); ("channel", VStr "C42"); ("files", VList [VDict book])].

Definition xlsx_upload : Request :=
  {| json := VDict [("event", VDict xlsx_event)]; headers := []; form := [] |}.



(** The same upload, delivered again. *)
Definition xlsx_upload_retried : Request :=
  {| json := VDict [("event", VDict xlsx_event)];
     headers := [("x-slack-retry-num", "2")];
     form := [] |}.

Definition no_files_event : dict value :=
  [("type", VStr "message"); ("channel", VStr "C42"); ("files", VList [])].

Definition no_files : Request :=
  {| json := VDict [("event", VDict no_files_event)]; headers := []; form := [] |}.


Definition question : Request :=
  {| json := VNone; headers := [];
     form := [("text", " why is the loss ratio high? "); ("channel_id", "C42")] |}.

(** Nothing can be read: no spreadsheet is found and downloads are
    refused with 403. *)
Definition offline : Environment :=
  {| SLACK_BOT_TOKEN := "xoxb-1";
     DEEPSEEK_API_KEY := DEEPSEEK_PLACEHOLDER;
     requests_get := fun u _ =>
       inr {| status_code := 403; reason := "Forbidden"; url := u;
              content := EmptyString |};
     pd_read_excel := fun _ => inl (FileNotFoundError "No such file or directory");
     chat_completions_create := fun _ _ _ =>
       inl (OtherException "APIConnectionError" "Connection error.");
     chat_postMessage := fun _ _ =>
       inl (OtherException "SlackApiError" "channel_not_found");
     float64_sum := Samples.left_to_right;
     truediv_error := Samples.no_loop |}.

(** Every source holds [df], a completion key is configured and the
    service answers every prompt with the same padded sentence. *)
Definition advised (df : DataFrame) : Environment :=
  {| SLACK_BOT_TOKEN := "xoxb-1";
     DEEPSEEK_API_KEY := "sk-1";
     requests_get := fun u _ =>
       inr {| status_code := 200; reason := "OK"; url := u; content := "xlsx" |};
     pd_read_excel := fun _ => inr df;
     chat_completions_create := fun _ _ _ => inr " The portfolio is healthy. ";
     chat_postMessage := fun _ _ => inr tt;
     float64_sum := Samples.left_to_right;
     truediv_error := Samples.no_loop |}.

(** [advised] under other credentials. *)
Definition rotated (df : DataFrame) : Environment :=
  {| SLACK_BOT_TOKEN := "xoxb-2";
     DEEPSEEK_API_KEY := "sk-2";
     requests_get := requests_get (advised df);
     pd_read_excel := pd_read_excel (advised df);
     chat_completions_create := chat_completions_create (advised df);
     chat_postMessage := chat_postMessage (advised df);
     float64_sum := float64_sum (advised df);
     truediv_error := truediv_error (advised df) |}.

Definition failed : SessionState :=
  {| LAST_UPLOADED_FILE := VNone;
     LAST_UPLOADED_FILE_NAME := None;
     LAST_ANALYSIS_RESULT := Some (Failure "Excel file not found") |}.

End Scenarios.

(* ================================================================= *)
(** * Properties *)

(** ** The monad *)

Lemma bind_return {A B : Type} (c : M A) (k : A -> M B) (s s1 : Store) (a : A) :
  c s = (Return a, s1) -> bind c k s = k a s1.
Proof. intros H. unfold bind. rewrite H. reflexivity. Qed.

Lemma bind_raise {A B : Type} (c : M A) (k : A -> M B) (s s1 : Store) (e : exn) :
  c s = (Raise e, s1) -> bind c k s = (Raise e, s1).
Proof. intros H. unfold bind. rewrite H. reflexivity. Qed.

Lemma sent_since_nothing (s : Store) : sent_since s s [].
Proof. unfold sent_since. rewrite app_nil_r. reflexivity. Qed.

(** ** 64-bit integers *)

Lemma wrap64_small (z : Z) :
  (- 9223372036854775808 <= z < 9223372036854775808)%Z -> wrap64 z = z.
Proof.
  intros H. unfold wrap64. rewrite Z.mod_small; lia.
Qed.

Lemma wrap64_add (a x : Z) : wrap64 (wrap64 a + x) = wrap64 (a + x).
Proof.
  unfold wrap64. f_equal.
  replace ((a + 9223372036854775808) mod 18446744073709551616
             - 9223372036854775808 + x + 9223372036854775808)%Z
    with ((a + 9223372036854775808) mod 18446744073709551616 + x)%Z by lia.
  rewrite Z.add_mod_idemp_l by lia. f_equal. lia.
Qed.

Lemma fold_wrap64 (cells : list Z) (a b : Z) :
  a = wrap64 b ->
  fold_left (fun acc x => wrap64 (acc + x)) cells a = wrap64 (fold_left Z.add cells b).
Proof.
  revert a b. induction cells as [|x cells IH]; intros a b H; simpl.
  - exact H.
  - apply IH. rewrite H. apply wrap64_add.
Qed.

(** The total of an [int64] column is the exact total modulo 2^64. *)
Lemma int64_sum_wraps (cells : list Z) : int64_sum cells = wrap64 (exact_total cells).
Proof. unfold int64_sum, exact_total. apply fold_wrap64. reflexivity. Qed.

Lemma fold_add_nonnegative (cells : list Z) (a : Z) :
  Forall (fun x => 0 <= x)%Z cells -> (a <= fold_left Z.add cells a)%Z.
Proof.
  intros H. revert a. induction H as [|x cells Hx _ IH]; intros a; simpl.
  - lia.
  - specialize (IH (a + x)%Z). lia.
Qed.

(** Without a negative cell and with an exact total below 2^63 nothing
    wraps. *)
Lemma int64_sum_exact (cells : list Z) :
  Forall (fun x => 0 <= x)%Z cells ->
  (exact_total cells < 9223372036854775808)%Z ->
  int64_sum cells = exact_total cells /\ (0 <= exact_total cells)%Z.
Proof.
  intros H B. pose proof (fold_add_nonnegative cells 0 H) as N.
  fold (exact_total cells) in N.
  split; [|exact N]. rewrite int64_sum_wraps. apply wrap64_small. lia.
Qed.

(** ** Tables *)

Lemma in_columns_lookup (df : DataFrame) (name : string) :
  in_columns name df = true <-> exists s, lookup name (data df) = Some s.
Proof.
  unfold in_columns, columns. destruct df as [d n]; simpl. clear n.
  induction d as [|[k v] d IH]; simpl.
  - split; [discriminate | intros [s H]; discriminate].
  - rewrite (String.eqb_sym name k). destruct (String.eqb k name); simpl.
    + split; [intros _; eexists; reflexivity | reflexivity].
    + exact IH.
Qed.

Lemma lookup_in_columns (df : DataFrame) (name : string) (series : Series) :
  lookup name (data df) = Some series -> in_columns name df = true.
Proof. intros H. apply in_columns_lookup. exists series. exact H. Qed.

Lemma numeric_sum (env : Environment) (series : Series) :
  numeric series = true -> exists n, sum env series = inr (Num n).
Proof.
  destruct series; try discriminate; intros _; eexists; reflexivity.
Qed.

(** The analysis of a table that has both columns, by the kind of its
    two totals. *)
Lemma analyse_present (env : Environment) (df : DataFrame) (s : Store)
    (premium_series claims_series : Series) :
  lookup "Premium" (data df) = Some premium_series ->
  lookup "Claims" (data df) = Some claims_series ->
  analyse env df s =
    (match sum env premium_series, sum env claims_series with
     | inl e, _ => Raise e
     | inr _, inl e => Raise e
     | inr (Str _), inr _ =>
         Raise (TypeError "'>' not supported between instances of 'str' and 'int'")
     | inr (Num premium), inr total_claims =>
         if positive premium then
           match total_claims with
           | Num claims =>
               Return (numbers premium claims (Float (percentage claims premium))
                         (len df))
           | Str t =>
               Raise (TypeError (truediv_error env (Str t) (Num premium)))
           end
         else
           Return (Success (Num premium) total_claims (Num (Int 0)) (len df))
     end, s).
Proof.
  intros HP HC. unfold analyse, required_columns. cbn [filter].
  rewrite (lookup_in_columns _ _ _ HP), (lookup_in_columns _ _ _ HC).
  cbn [negb]. unfold getitem, bind, of_answer. rewrite HP, HC. unfold ret, raise.
  destruct (sum env premium_series) as [e|[premium|t]]; [reflexivity| |];
    (destruct (sum env claims_series) as [e|total_claims]; [reflexivity|]);
    cbn [gt_zero]; [|reflexivity].
  destruct (positive premium); [|reflexivity].
  destruct total_claims as [claims|t]; reflexivity.
Qed.

Lemma analyse_store (env : Environment) (df : DataFrame) (s : Store) :
  snd (analyse env df s) = s.
Proof.
  destruct (lookup "Premium" (data df)) as [premium_series|] eqn:HP.
  - destruct (lookup "Claims" (data df)) as [claims_series|] eqn:HC.
    + rewrite (analyse_present env df s _ _ HP HC). reflexivity.
    + unfold analyse, required_columns. cbn [filter].
      assert (C : in_columns "Claims" df = false).
      { destruct (in_columns "Claims" df) eqn:E; [|reflexivity].
        apply in_columns_lookup in E. destruct E as [x E]. congruence. }
      rewrite C. destruct (in_columns "Premium" df); reflexivity.
  - unfold analyse, required_columns. cbn [filter].
    assert (C : in_columns "Premium" df = false).
    { destruct (in_columns "Premium" df) eqn:E; [|reflexivity].
      apply in_columns_lookup in E. destruct E as [x E]. congruence. }
    rewrite C. reflexivity.
Qed.

Lemma analyse_missing (env : Environment) (df : DataFrame) (s : Store) :
  in_columns "Premium" df = false \/ in_columns "Claims" df = false ->
  analyse env df s =
    (Return (Failure (missing_error
               ((if in_columns "Premium" df then [] else ["Premium"]) ++
                (if in_columns "Claims" df then [] else ["Claims"])))), s).
Proof.
  intros H. unfold analyse, required_columns. cbn [filter].
  destruct (in_columns "Premium" df), (in_columns "Claims" df);
    cbn [negb app]; try reflexivity.
  destruct H; discriminate.
Qed.

Lemma analyse_success (env : Environment) (df : DataFrame) (s s1 : Store)
    (r : RatioResult) :
  analyse env df s = (Return r, s1) -> success r = true ->
  exists premium_series claims_series,
    lookup "Premium" (data df) = Some premium_series /\
    lookup "Claims" (data df) = Some claims_series.
Proof.
  intros H Hr.
  destruct (in_columns "Premium" df) eqn:HP, (in_columns "Claims" df) eqn:HC;
    try (rewrite analyse_missing in H by (rewrite ?HP, ?HC; auto);
         inversion H; subst; discriminate).
  apply in_columns_lookup in HP, HC.
  destruct HP as [p HP], HC as [c HC]. exists p, c. split; assumption.
Qed.

Lemma on_exception_fails (e : exn) (s : Store) :
  exists message, on_exception e s = (Return (Failure message), s).
Proof. destruct e; eexists; reflexivity. Qed.

(** A successful result comes from a table that was loaded and
    analysed without an exception. *)
Lemma calculate_loss_ratio_success (env : Environment) (file_source : value)
    (s s1 : Store) (r : RatioResult) :
  calculate_loss_ratio env file_source s = (Return r, s1) ->
  success r = true ->
  exists df, load_table env file_source s = (Return df, s1) /\
             analyse env df s1 = (Return r, s1).
Proof.
  unfold calculate_loss_ratio, try_except, bind. intros H Hr.
  destruct (load_table env file_source s) as [[df|e] s2] eqn:L.
  - pose proof (analyse_store env df s2) as St.
    destruct (analyse env df s2) as [[r0|e] s3] eqn:A; simpl in St; subst s3.
    + inversion H; subst. exists df. split; [reflexivity | exact A].
    + destruct (on_exception_fails e s2) as [m Hm]. rewrite Hm in H.
      inversion H; subst. discriminate.
  - destruct (on_exception_fails e s2) as [m Hm]. rewrite Hm in H.
    inversion H; subst. discriminate.
Qed.

Lemma calculate_loss_ratio_loaded (env : Environment) (file_source : value)
    (s s1 : Store) (df : DataFrame) :
  load_table env file_source s = (Return df, s1) ->
  calculate_loss_ratio env file_source s =
    match analyse env df s1 with
    | (Return r, s2) => (Return r, s2)
    | (Raise e, s2) => on_exception e s2
    end.
Proof.
  intros L. unfold calculate_loss_ratio, try_except, bind. rewrite L. reflexivity.
Qed.

(* ================================================================= *)
(** ** The Ratio Calculator *)

(** C1, as amended.  Whenever the table that was loaded has a Premium
    and a Claims column that both hold numbers, the calculator returns
    the success shape with the two column totals and the row count.
    The total of a column of integers is its exact total modulo 2^64
    (numpy's [int64]), that of a column of binary64 numbers is numpy's
    total of them.  The ratio is (claims / premium) * 100 computed
    in binary64 arithmetic when the premium total is above 0, and the
    integer 0 otherwise. *)
Theorem calculate_loss_ratio_ratio (env : Environment) (file_source : value)
    (s s1 : Store) (df : DataFrame) (premium_series claims_series : Series) :
  load_table env file_source s = (Return df, s1) ->
  lookup "Premium" (data df) = Some premium_series ->
  lookup "Claims" (data df) = Some claims_series ->
  numeric premium_series = true ->
  numeric claims_series = true ->
  exists premium claims ratio,
    calculate_loss_ratio env file_source s =
      (Return (numbers premium claims ratio (len df)), s1) /\
    sum env premium_series = inr (Num premium) /\
    sum env claims_series = inr (Num claims) /\
    (forall cells, premium_series = Int64 cells ->
                   premium = Int (wrap64 (exact_total cells))) /\
    (forall cells, claims_series = Int64 cells ->
                   claims = Int (wrap64 (exact_total cells))) /\
    (forall cells, premium_series = Float64 cells ->
                   premium = Float (float64_sum env cells)) /\
    (forall cells, claims_series = Float64 cells ->
                   claims = Float (float64_sum env cells)) /\
    (positive premium = true ->
       ratio = Float (float_mul (float_div (to_float claims) (to_float premium))
                        (float_of_Z 100))) /\
    (positive premium = false -> ratio = Int 0).
Proof.
  intros L HP HC NP NC.
  destruct (numeric_sum env _ NP) as [premium EP].
  destruct (numeric_sum env _ NC) as [claims EC].
  rewrite (calculate_loss_ratio_loaded _ _ _ _ _ L).
  rewrite (analyse_present env df s1 _ _ HP HC), EP, EC.
  exists premium, claims, (if positive premium
                           then Float (percentage claims premium) else Int 0).
  split; [destruct (positive premium); reflexivity|].
  split; [reflexivity|]. split; [reflexivity|].
  split; [|split; [|split; [|split; [|split]]]].
  - intros cells ->. cbn in EP. rewrite int64_sum_wraps in EP. congruence.
  - intros cells ->. cbn in EC. rewrite int64_sum_wraps in EC. congruence.
  - intros cells ->. cbn in EP. congruence.
  - intros cells ->. cbn in EC. congruence.
  - intros ->. reflexivity.
  - intros ->. reflexivity.
Qed.

(** On Premium=[400], Claims=[245] the result is premium 400, claims
    245 and the binary64 number 61.25000000000001 (8620171161763841 *
    2^-47), not 61.25. *)
Lemma calculate_loss_ratio_ratio_witness :
  calculate_loss_ratio (Samples.serving Samples.inexact) VNone (fresh initial_session) =
    (Return (numbers (Int 400) (Int 245)
               (Float (S754_finite false 8620171161763841 (-47))) 1),
     {| session := initial_session; actions := [ReadExcel (Path EXCEL_FILE)] |}).
Proof.
  destruct (calculate_loss_ratio_ratio (Samples.serving Samples.inexact) VNone
              (fresh initial_session)
              {| session := initial_session; actions := [ReadExcel (Path EXCEL_FILE)] |}
              Samples.inexact (Int64 [400%Z]) (Int64 [245%Z])
              eq_refl eq_refl eq_refl eq_refl eq_refl)
    as [premium [claims [ratio [E [EP [EC [_ [_ [_ [_ [R _]]]]]]]]]]].
  injection EP as <-. injection EC as <-.
  rewrite E, (R eq_refl). reflexivity.
Defined.

(** C1, as stated, fails.  A sheet whose Premium cells are text has
    both columns, and the calculator returns a failure.  A sheet whose
    two premiums of 2^62 add up to 2^63 gets the wrapped premium -2^63
    and the ratio 0, although the sum of the premiums is above 0. *)
Lemma ratio_claim_fails :
  (in_columns "Premium" Samples.text_premium = true /\
   in_columns "Claims" Samples.text_premium = true /\
   calculate_loss_ratio (Samples.serving Samples.text_premium) VNone
     (fresh initial_session) =
     (Return (Failure
        "Error reading file: '>' not supported between instances of 'str' and 'int'"),
      {| session := initial_session; actions := [ReadExcel (Path EXCEL_FILE)] |})) /\
  (exact_total [4611686018427387904; 4611686018427387904]%Z = 9223372036854775808%Z /\
   calculate_loss_ratio (Samples.serving Samples.huge) VNone (fresh initial_session) =
     (Return (numbers (Int (-9223372036854775808)) (Int 2) (Int 0) 2),
      {| session := initial_session; actions := [ReadExcel (Path EXCEL_FILE)] |})).
Proof. repeat split. Qed.

(** C2, as amended.  A result returned with success = true comes from a
    table that has both columns and whose two totals could be taken.
    Its record count is at least 0, its premium is a number, namely the
    total of the Premium column, its claims field is the total of the
    Claims column, and its ratio is (claims / premium) * 100 in binary64
    when the premium is above 0 and the integer 0 otherwise.  For a
    column of integers without a negative cell whose exact total is
    below 2^63, the total is the exact one and is at least 0. *)
Theorem success_result_signs (env : Environment) (file_source : value)
    (s s1 : Store) (r : RatioResult) :
  calculate_loss_ratio env file_source s = (Return r, s1) ->
  success r = true ->
  exists df premium_series claims_series premium total_claims ratio,
    load_table env file_source s = (Return df, s1) /\
    lookup "Premium" (data df) = Some premium_series /\
    lookup "Claims" (data df) = Some claims_series /\
    r = Success (Num premium) total_claims ratio (len df) /\
    sum env premium_series = inr (Num premium) /\
    sum env claims_series = inr total_claims /\
    (0 <= len df)%nat /\
    (positive premium = true ->
       exists claims, total_claims = Num claims /\
                      ratio = Num (Float (percentage claims premium))) /\
    (positive premium = false -> ratio = Num (Int 0)) /\
    (forall cells,
       premium_series = Int64 cells ->
       Forall (fun x => 0 <= x)%Z cells ->
       (exact_total cells < 9223372036854775808)%Z ->
       premium = Int (exact_total cells) /\ (0 <= exact_total cells)%Z) /\
    (forall cells,
       claims_series = Int64 cells ->
       Forall (fun x => 0 <= x)%Z cells ->
       (exact_total cells < 9223372036854775808)%Z ->
       total_claims = Num (Int (exact_total cells)) /\
       (0 <= exact_total cells)%Z).
Proof.
  intros H Hr.
  destruct (calculate_loss_ratio_success _ _ _ _ _ H Hr) as [df [L A]].
  destruct (analyse_success _ _ _ _ _ A Hr) as [P [C [HP HC]]].
  rewrite (analyse_present env df s1 _ _ HP HC) in A.
  destruct (sum env P) as [e|[premium|t]] eqn:EP; try discriminate A;
    (destruct (sum env C) as [e|total_claims] eqn:EC; [discriminate A|]);
    [|discriminate A].
  assert (R : exists ratio,
             r = Success (Num premium) total_claims ratio (len df) /\
             (positive premium = true ->
                exists claims, total_claims = Num claims /\
                               ratio = Num (Float (percentage claims premium))) /\
             (positive premium = false -> ratio = Num (Int 0))).
  { destruct (positive premium).
    - destruct total_claims as [claims|t]; [|discriminate A].
      inversion A. eexists. split; [reflexivity|].
      split; [|discriminate]. intros _. exists claims. split; reflexivity.
    - inversion A. eexists. split; [reflexivity|].
      split; [discriminate|reflexivity]. }
  destruct R as [ratio [R [RP RN]]].
  exists df, P, C, premium, total_claims, ratio.
  split; [exact L|]. split; [exact HP|]. split; [exact HC|].
  split; [exact R|]. split; [exact EP|]. split; [exact EC|].
  split; [apply Nat.le_0_l|].
  split; [exact RP|]. split; [exact RN|].
  split.
  - intros cells -> N B. destruct (int64_sum_exact cells N B) as [E Z0].
    cbn in EP. rewrite E in EP. split; [congruence | exact Z0].
  - intros cells -> N B. destruct (int64_sum_exact cells N B) as [E Z0].
    cbn in EC. rewrite E in EC. split; [congruence | exact Z0].
Qed.

Lemma success_result_signs_witness :
  exists df premium_series claims_series premium total_claims ratio,
    load_table (Samples.serving Samples.low) VNone (fresh initial_session) =
      (Return df,
       {| session := initial_session; actions := [ReadExcel (Path EXCEL_FILE)] |}) /\
    lookup "Premium" (data df) = Some premium_series /\
    lookup "Claims" (data df) = Some claims_series /\
    numbers (Int 1000) (Int 100) (Float Samples.ten) 1 =
      Success (Num premium) total_claims ratio (len df) /\
    sum (Samples.serving Samples.low) premium_series = inr (Num premium) /\
    sum (Samples.serving Samples.low) claims_series = inr total_claims /\
    (0 <= len df)%nat /\
    (positive premium = true ->
       exists claims,
         total_claims = Num claims /\
         ratio = Num (Float (percentage claims premium))) /\
    (positive premium = false -> ratio = Num (Int 0)) /\
    (forall cells,
       premium_series = Int64 cells ->
       Forall (fun x => 0 <= x)%Z cells ->
       (exact_total cells < 9223372036854775808)%Z ->
       premium = Int (exact_total cells) /\ (0 <= exact_total cells)%Z) /\
    (forall cells,
       claims_series = Int64 cells ->
       Forall (fun x => 0 <= x)%Z cells ->
       (exact_total cells < 9223372036854775808)%Z ->
       total_claims = Num (Int (exact_total cells)) /\
       (0 <= exact_total cells)%Z).
Proof.
  apply (success_result_signs (Samples.serving Samples.low) VNone
           (fresh initial_session)); reflexivity.
Defined.

(** C2, as stated, fails: a sheet with one refunded policy (premium -5,
    claims -3) is analysed successfully and the result carries the
    negative totals. *)
Lemma success_result_negative_sums :
  calculate_loss_ratio (Samples.serving Samples.refund) VNone (fresh initial_session) =
    (Return (numbers (Int (-5)) (Int (-3)) (Int 0) 1),
     {| session := initial_session; actions := [ReadExcel (Path EXCEL_FILE)] |}) /\
  success (numbers (Int (-5)) (Int (-3)) (Int 0) 1) = true /\
  ~ (0 <= -5)%Z /\ ~ (0 <= -3)%Z.
Proof.
  split; [reflexivity|]. split; [reflexivity|]. split; lia.
Qed.

(** Cells that are not negative do not make the claims total so: three
    claims of 2^62 wrap around to -2^62; and a column of text gives a
    claims field that is no number at all. *)
Remark claims_total_wraps_or_is_text :
  calculate_loss_ratio (Samples.serving Samples.huge_claims) VNone
    (fresh initial_session) =
    (Return (numbers (Int 1) (Int (-4611686018427387904))
               (Float (S754_finite true 7036874417766400 16)) 3),
     {| session := initial_session; actions := [ReadExcel (Path EXCEL_FILE)] |}) /\
  calculate_loss_ratio (Samples.serving Samples.text_claims) VNone
    (fresh initial_session) =
    (Return (Success (Num (Int 0)) (Str "n/an/a") (Num (Int 0)) 2),
     {| session := initial_session; actions := [ReadExcel (Path EXCEL_FILE)] |}).
Proof. split; reflexivity. Qed.

(** C3. Whenever the table that was loaded lacks Premium or Claims, the
    calculator returns the failure shape, never numbers, and its error
    text names exactly the required columns the table lacks: "Claims"
    when only Claims is absent, "Premium" when only Premium is absent,
    and "Premium, Claims" when both are. *)
Theorem missing_columns_reported (env : Environment) (file_source : value)
    (s s1 : Store) (df : DataFrame) :
  load_table env file_source s = (Return df, s1) ->
  in_columns "Premium" df = false \/ in_columns "Claims" df = false ->
  calculate_loss_ratio env file_source s =
    (Return (Failure
       ((if in_columns "Premium" df
         then "Missing required columns: Claims. File must have "
         else if in_columns "Claims" df
              then "Missing required columns: Premium. File must have "
              else "Missing required columns: Premium, Claims. File must have ")
        ++ dquote ++ "Premium" ++ dquote ++ " and " ++ dquote ++ "Claims" ++ dquote
        ++ " columns.")),
     s1).
Proof.
  intros L H.
  rewrite (calculate_loss_ratio_loaded _ _ _ _ _ L).
  rewrite (analyse_missing _ _ _ H).
  destruct (in_columns "Premium" df) eqn:HP, (in_columns "Claims" df) eqn:HC;
    try reflexivity.
  destruct H; discriminate.
Qed.

Lemma missing_columns_reported_witness :
  calculate_loss_ratio (Samples.serving Samples.no_claims) VNone (fresh initial_session) =
    (Return (Failure
       ("Missing required columns: Claims. File must have "
        ++ String "034" ("Premium" ++ String "034" (" and " ++ String "034"
             ("Claims" ++ String "034" " columns."))))),
     {| session := initial_session; actions := [ReadExcel (Path EXCEL_FILE)] |}) /\
  calculate_loss_ratio (Samples.serving Samples.no_premium) VNone (fresh initial_session) =
    (Return (Failure
       ("Missing required columns: Premium. File must have "
        ++ String "034" ("Premium" ++ String "034" (" and " ++ String "034"
             ("Claims" ++ String "034" " columns."))))),
     {| session := initial_session; actions := [ReadExcel (Path EXCEL_FILE)] |}) /\
  calculate_loss_ratio (Samples.serving Samples.neither) VNone (fresh initial_session) =
    (Return (Failure
       ("Missing required columns: Premium, Claims. File must have "
        ++ String "034" ("Premium" ++ String "034" (" and " ++ String "034"
             ("Claims" ++ String "034" " columns."))))),
     {| session := initial_session; actions := [ReadExcel (Path EXCEL_FILE)] |}).
Proof.
  split; [|split].
  - exact (missing_columns_reported (Samples.serving Samples.no_claims) VNone
             (fresh initial_session) _ Samples.no_claims eq_refl (or_intror eq_refl)).
  - exact (missing_columns_reported (Samples.serving Samples.no_premium) VNone
             (fresh initial_session) _ Samples.no_premium eq_refl (or_introl eq_refl)).
  - exact (missing_columns_reported (Samples.serving Samples.neither) VNone
             (fresh initial_session) _ Samples.neither eq_refl (or_introl eq_refl)).
Defined.

(** C4. For every file source, environment and store the calculator
    returns a value and raises nothing: the result of the [try] body
    when it completes, and otherwise the failure shape whose text tells
    a source that was not found, an absent column, a failed download and
    any other failure apart. *)
Theorem calculate_loss_ratio_never_raises (env : Environment) (file_source : value)
    (s : Store) :
  exists r s1,
    calculate_loss_ratio env file_source s = (Return r, s1) /\
    match bind (load_table env file_source) (analyse env) s with
    | (Return r0, _) => r = r0
    | (Raise (FileNotFoundError _), _) => r = Failure "Excel file not found"
    | (Raise (KeyError key), _) => r = Failure ("Missing column in Excel: " ++ key)
    | (Raise (RequestException message), _) =>
        r = Failure ("Failed to download file: " ++ message)
    | (Raise (OtherException _ message), _) =>
        r = Failure ("Error reading file: " ++ message)
    end.
Proof.
  unfold calculate_loss_ratio, try_except.
  destruct (bind (load_table env file_source) (analyse env) s) as [[r0|e] s1].
  - exists r0, s1. split; reflexivity.
  - destruct e; simpl; eexists; eexists; split; reflexivity.
Qed.

(** Whatever the calculator returns as a success has a number as its
    premium and as its ratio; its claims are a number whenever the
    premium is above 0. *)
Lemma calculate_loss_ratio_shape (env : Environment) (file_source : value)
    (s s1 : Store) (r : RatioResult) :
  calculate_loss_ratio env file_source s = (Return r, s1) ->
  success r = true ->
  exists premium claims ratio n,
    r = Success (Num premium) claims (Num ratio) n /\
    (positive premium = true -> exists c, claims = Num c).
Proof.
  intros H Hr.
  destruct (calculate_loss_ratio_success _ _ _ _ _ H Hr) as [df [L A]].
  destruct (analyse_success _ _ _ _ _ A Hr) as [P [C [HP HC]]].
  rewrite (analyse_present env df s1 _ _ HP HC) in A.
  destruct (sum env P) as [e|[premium|t]]; try discriminate A;
    (destruct (sum env C) as [e|total_claims]; [discriminate A|]);
    [|discriminate A].
  destruct (positive premium) eqn:Pos.
  - destruct total_claims as [claims|t]; [|discriminate A].
    inversion A. unfold numbers. do 4 eexists. split; [reflexivity|].
    intros _. eexists. reflexivity.
  - inversion A. do 4 eexists. split; [reflexivity|].
    intros X. congruence.
Qed.
(* ================================================================= *)
(** ** Text lemmas *)

Lemma string_app_assoc (a b c : string) : (a ++ b) ++ c = a ++ (b ++ c).
Proof. induction a as [|x a IH]; simpl; [reflexivity | rewrite IH; reflexivity]. Qed.

Lemma string_app_nil_r (a : string) : a ++ EmptyString = a.
Proof. induction a as [|x a IH]; simpl; [reflexivity | rewrite IH; reflexivity]. Qed.

Lemma prefix_app (a b : string) : String.prefix a (a ++ b) = true.
Proof.
  induction a as [|x a IH]; simpl.
  - destruct b; reflexivity.
  - destruct (ascii_dec x x) as [_|N]; [exact IH | contradiction].
Qed.

Lemma prefix_app_head (h a b : string) :
  String.prefix (h ++ a) (h ++ b) = String.prefix a b.
Proof.
  induction h as [|x h IH]; simpl.
  - reflexivity.
  - destruct (ascii_dec x x) as [_|N]; [exact IH | contradiction].
Qed.

Lemma contains_prefix (t p : string) : String.prefix p t = true -> contains t p = true.
Proof. intros H. destruct t; simpl in *; rewrite H; reflexivity. Qed.

Lemma contains_app (a w b : string) : contains (a ++ w ++ b) w = true.
Proof.
  induction a as [|x a IH]; simpl.
  - apply contains_prefix, prefix_app.
  - rewrite IH. apply orb_true_r.
Qed.

Lemma sign_free_app (a b : string) : sign_free (a ++ b) = sign_free a && sign_free b.
Proof.
  induction a as [|x a IH]; simpl; [reflexivity|].
  rewrite IH, andb_assoc. reflexivity.
Qed.

Lemma sign_free_prefix (p t : string) :
  String.prefix p t = true -> sign_free t = true -> sign_free p = true.
Proof.
  revert t. induction p as [|x p IH]; intros t H F; simpl; [reflexivity|].
  destruct t as [|y t]; simpl in H; [discriminate|].
  destruct (ascii_dec x y) as [->|_]; [|discriminate].
  simpl in F. apply andb_true_iff in F. destruct F as [Fy Ft].
  rewrite Fy. simpl. exact (IH t H Ft).
Qed.

Lemma sign_free_contains (t p : string) :
  contains t p = true -> sign_free t = true -> sign_free p = true.
Proof.
  induction t as [|y t IH]; intros H F.
  - cbn [contains] in H. rewrite orb_false_r in H. exact (sign_free_prefix _ _ H F).
  - cbn [contains] in H. apply orb_true_iff in H. destruct H as [H|H].
    + exact (sign_free_prefix _ _ H F).
    + simpl in F. apply andb_true_iff in F. exact (IH H (proj2 F)).
Qed.

Lemma sign_free_of_list (l : list ascii) :
  Forall (fun c => Ascii.eqb c "226"%char = false) l ->
  sign_free (string_of_list_ascii l) = true.
Proof.
  induction 1 as [|c l Hc _ IH]; simpl; [reflexivity|].
  rewrite Hc, IH. reflexivity.
Qed.

Lemma sign_free_to_list (s : string) :
  sign_free s = true ->
  Forall (fun c => Ascii.eqb c "226"%char = false) (list_ascii_of_string s).
Proof.
  induction s as [|c s IH]; simpl; intros H; constructor.
  - apply andb_true_iff in H. destruct H as [H _].
    apply negb_true_iff in H. exact H.
  - apply IH. apply andb_true_iff in H. exact (proj2 H).
Qed.

Lemma Forall_group3 (P : ascii -> Prop) (l : list ascii) :
  P ","%char -> Forall P l -> Forall P (group3 l).
Proof.
  intros Hcomma.
  assert (G : forall n l, (List.length l <= n)%nat -> Forall P l -> Forall P (group3 l)).
  { clear l. induction n as [|n IH]; intros l Hn F.
    - destruct l; [exact F | simpl in Hn; lia].
    - destruct l as [|a [|b [|c [|d rest]]]]; try exact F.
      change (group3 (a :: b :: c :: d :: rest))
        with (a :: b :: c :: ","%char :: group3 (d :: rest)).
      inversion F as [|? ? Ha F1]; subst.
      inversion F1 as [|? ? Hb F2]; subst.
      inversion F2 as [|? ? Hc F3]; subst.
      repeat (constructor; [assumption|]).
      apply IH; [simpl in *; lia | exact F3]. }
  apply (G (List.length l)). apply Nat.le_refl.
Qed.

Lemma sign_free_thousands (s : string) : sign_free s = true -> sign_free (thousands s) = true.
Proof.
  intros H. unfold thousands. apply sign_free_of_list.
  apply Forall_rev. apply Forall_group3; [reflexivity|].
  apply Forall_rev. apply sign_free_to_list. exact H.
Qed.

Lemma sign_free_uint (u : Decimal.uint) : sign_free (NilEmpty.string_of_uint u) = true.
Proof. induction u; simpl; auto. Qed.

Lemma sign_free_digits (z : Z) : sign_free (digits z) = true.
Proof. apply sign_free_uint. Qed.

Lemma sign_free_string_of_nat (n : nat) : sign_free (string_of_nat n) = true.
Proof. apply sign_free_uint. Qed.

Lemma sign_free_sign (f : float64) : sign_free (sign f) = true.
Proof. unfold sign. destruct (sign_bit f); reflexivity. Qed.

Lemma sign_free_float_comma_0f (f : float64) : sign_free (float_comma_0f f) = true.
Proof.
  unfold float_comma_0f.
  destruct f as [z|i| |b m e]; try reflexivity; try (destruct i; reflexivity);
    (rewrite sign_free_app, sign_free_sign, sign_free_thousands;
     [reflexivity | apply sign_free_digits]).
Qed.

Lemma sign_free_float_1f (f : float64) : sign_free (float_1f f) = true.
Proof.
  unfold float_1f.
  destruct f as [z|i| |b m e]; try reflexivity; try (destruct i; reflexivity);
    (cbv zeta; rewrite !sign_free_app, sign_free_sign, !sign_free_digits;
     reflexivity).
Qed.

Lemma sign_free_comma_0f (n : number) : sign_free (comma_0f n) = true.
Proof. apply sign_free_float_comma_0f. Qed.

Lemma sign_free_one_f (n : number) : sign_free (one_f n) = true.
Proof. apply sign_free_float_1f. Qed.

Lemma sign_free_rev_string (s acc : string) :
  sign_free (rev_string s acc) = sign_free s && sign_free acc.
Proof.
  revert acc. induction s as [|c s IH]; intros acc; simpl; [reflexivity|].
  rewrite IH. simpl.
  destruct (negb (Ascii.eqb c "226"%char)), (sign_free s); reflexivity.
Qed.

Lemma sign_free_reverse (s : string) : sign_free (reverse s) = sign_free s.
Proof. unfold reverse. rewrite sign_free_rev_string. apply andb_true_r. Qed.

Lemma sign_free_tail (c : ascii) (s : string) :
  sign_free (String c s) = true -> sign_free s = true.
Proof. simpl. intros H. apply andb_true_iff in H. exact (proj2 H). Qed.

Lemma sign_free_lstrip (s : string) : sign_free s = true -> sign_free (lstrip s) = true.
Proof.
  assert (G : forall n s, (String.length s <= n)%nat ->
                          sign_free s = true -> sign_free (lstrip s) = true).
  { clear s. induction n as [|n IH]; intros s Hn F.
    - destruct s; [reflexivity | simpl in Hn; lia].
    - destruct s as [|c1 r1]; [reflexivity|].
      cbn [lstrip].
      destruct (is_space1 c1).
      + apply IH; [simpl in Hn; lia | eauto using sign_free_tail].
      + destruct r1 as [|c2 r2]; [exact F|].
        destruct (is_space2 _ _).
        * apply IH; [simpl in Hn; lia | eauto using sign_free_tail].
        * destruct r2 as [|c3 r3]; [exact F|].
          destruct (is_space3 _ _ _); [|exact F].
          apply IH; [simpl in Hn; lia | eauto using sign_free_tail]. }
  apply (G (String.length s)). apply Nat.le_refl.
Qed.

Lemma sign_free_lstrip_reversed (s : string) :
  sign_free s = true -> sign_free (lstrip_reversed s) = true.
Proof.
  assert (G : forall n s, (String.length s <= n)%nat ->
                          sign_free s = true -> sign_free (lstrip_reversed s) = true).
  { clear s. induction n as [|n IH]; intros s Hn F.
    - destruct s; [reflexivity | simpl in Hn; lia].
    - destruct s as [|c1 r1]; [reflexivity|].
      cbn [lstrip_reversed].
      destruct (is_space1 c1).
      + apply IH; [simpl in Hn; lia | eauto using sign_free_tail].
      + destruct r1 as [|c2 r2]; [exact F|].
        destruct (is_space2 _ _).
        * apply IH; [simpl in Hn; lia | eauto using sign_free_tail].
        * destruct r2 as [|c3 r3]; [exact F|].
          destruct (is_space3 _ _ _); [|exact F].
          apply IH; [simpl in Hn; lia | eauto using sign_free_tail]. }
  apply (G (String.length s)). apply Nat.le_refl.
Qed.

Lemma sign_free_strip (s : string) : sign_free s = true -> sign_free (strip s) = true.
Proof.
  intros F. unfold strip, rstrip.
  rewrite sign_free_reverse. apply sign_free_lstrip_reversed.
  rewrite sign_free_reverse. apply sign_free_lstrip. exact F.
Qed.


Lemma sign_free_message_head (file_name : option string)
    (premium claims loss_ratio : number) (num_policies : nat) :
  sign_free_name file_name = true ->
  sign_free (message_head file_name premium claims loss_ratio num_policies) = true.
Proof.
  intros H. unfold message_head.
  rewrite !sign_free_app, !sign_free_comma_0f, sign_free_one_f,
    sign_free_string_of_nat.
  destruct file_name as [name|]; cbn [given]; [|reflexivity].
  destruct (String.eqb name EmptyString); [reflexivity|].
  simpl in H. rewrite !sign_free_app, H. reflexivity.
Qed.

(* ================================================================= *)
(** ** The Message Formatter *)

Lemma analysis_message_head (file_name : option string)
    (premium claims loss_ratio : number) (num_policies : nat) (warning : string) :
  analysis_message
    match given file_name with
    | Some name => "📄 *Analysis of: " ++ name ++ "*" ++ nl ++ nl
    | None => EmptyString
    end
    ("$" ++ comma_0f premium) ("$" ++ comma_0f claims)
    (one_f loss_ratio) num_policies warning
  = message_head file_name premium claims loss_ratio num_policies ++ warning ++ nl.
Proof.
  unfold analysis_message, message_head.
  rewrite !string_app_assoc. reflexivity.
Qed.

Lemma above_threshold_exceeds_75 (loss_ratio : number) :
  above_threshold loss_ratio = exceeds_75 loss_ratio.
Proof.
  destruct loss_ratio as [z|f]; [|reflexivity].
  unfold above_threshold, exceeds_75.
  destruct (Z.ltb_spec 75 z), (Z.leb_spec 76 z); try reflexivity; lia.
Qed.

Lemma generate_ai_insights_numbers (env : Environment)
    (premium claims loss_ratio : number) (num_policies : nat) (s : Store) :
  generate_ai_insights env (numbers premium claims loss_ratio num_policies) s =
    (Return
       match chat_completions_create env insight_system
               (insight_prompt_for premium claims loss_ratio num_policies) 200 with
       | inr content => Some (strip content)
       | inl _ => None
       end,
     {| session := session s;
        actions := actions s ++
                   [ChatCompletion insight_system
                      (insight_prompt_for premium claims loss_ratio num_policies)
                      200] |}).
Proof.
  unfold numbers, generate_ai_insights, insight_prompt_for, complete, try_except,
    bind, emit, of_answer, format_comma_0f, format_1f, ret.
  destruct (chat_completions_create env _ _ _); reflexivity.
Qed.

(** A result one of whose figures is a text makes the prompt of the
    insight fail before the completion service is called; the function
    then returns [None]. *)
Lemma generate_ai_insights_text (env : Environment) (r : RatioResult) (s : Store) :
  printable r = false -> generate_ai_insights env r s = (Return None, s).
Proof.
  destruct r as [[p|p] [c|c] [l|l] n|m]; try discriminate; intros _; reflexivity.
Qed.

(** The text of a formatted success: the head, the warning or nothing,
    a line end, and then nothing or the commentary block. *)
Lemma format_slack_response_numbers (env : Environment)
    (premium claims loss_ratio : number) (num_policies : nat)
    (file_name : option string) (include_ai : bool) (s : Store) :
  exists tail s1,
    format_slack_response env (numbers premium claims loss_ratio num_policies)
      file_name include_ai s =
      (Return {| response_type := "in_channel";
                 text := message_head file_name premium claims loss_ratio num_policies
                           ++ (if exceeds_75 loss_ratio
                               then warning_line else EmptyString)
                           ++ nl ++ tail |}, s1) /\
    (tail = EmptyString \/
     exists content,
       chat_completions_create env insight_system
         (insight_prompt_for premium claims loss_ratio num_policies) 200
         = inr content /\
       tail = nl ++ "🤖 *AI Insights:*" ++ nl ++ "_" ++ strip content ++ "_") /\
    (commentary_enabled env include_ai = false -> tail = EmptyString /\ s1 = s) /\
    (commentary_enabled env include_ai = true ->
       s1 = {| session := session s;
               actions := actions s ++
                          [ChatCompletion insight_system
                             (insight_prompt_for premium claims loss_ratio
                                num_policies) 200] |}).
Proof.
  unfold numbers, format_slack_response.
  cbn [gt_threshold format_comma_0f format_1f].
  unfold bind at 1. unfold ret at 1. cbv beta iota.
  unfold bind at 1. unfold ret at 1. cbv beta iota.
  unfold bind at 1. unfold ret at 1. cbv beta iota.
  unfold bind at 1. unfold ret at 1. cbv beta iota zeta.
  rewrite analysis_message_head, above_threshold_exceeds_75.
  fold (commentary_enabled env include_ai).
  fold (numbers premium claims loss_ratio num_policies).
  set (message := message_head _ _ _ _ _ ++ _ ++ nl).
  assert (E : forall tail, message ++ tail =
                message_head file_name premium claims loss_ratio num_policies
                  ++ (if exceeds_75 loss_ratio
                      then warning_line else EmptyString) ++ nl ++ tail).
  { intros tail. unfold message. rewrite !string_app_assoc. reflexivity. }
  destruct (commentary_enabled env include_ai).
  - rewrite (bind_return _ _ _ _ _
               (generate_ai_insights_numbers env premium claims loss_ratio
                  num_policies s)).
    destruct (chat_completions_create env _ _ _) as [e|content] eqn:O.
    + eexists EmptyString, _. unfold ret.
      rewrite <- E, string_app_nil_r. repeat split; auto; discriminate.
    + destruct (String.eqb (strip content) EmptyString).
      * eexists EmptyString, _. unfold ret.
        rewrite <- E, string_app_nil_r. repeat split; auto; discriminate.
      * eexists (nl ++ "🤖 *AI Insights:*" ++ nl ++ "_" ++ strip content ++ "_"), _.
        unfold ret. rewrite <- E. repeat split; eauto; discriminate.
  - exists EmptyString, s. unfold ret.
    rewrite <- E, string_app_nil_r. repeat split; auto; discriminate.
Qed.

(** A failed result is formatted as the error line, without a call. *)
Lemma format_slack_response_failure (env : Environment) (error : string)
    (file_name : option string) (include_ai : bool) (s : Store) :
  format_slack_response env (Failure error) file_name include_ai s =
    (Return {| response_type := "in_channel";
               text := "❌ *Error"
                         ++ match given file_name with
                            | Some name => " (" ++ name ++ ")"
                            | None => EmptyString
                            end ++ ":* " ++ error |}, s).
Proof. reflexivity. Qed.

(** A success one of whose figures is a text is not formatted: the
    comparison with the threshold or an f-string raises, before any
    call is made. *)
Lemma format_slack_response_text (env : Environment) (r : RatioResult)
    (file_name : option string) (include_ai : bool) (s : Store) :
  printable r = false ->
  exists e, format_slack_response env r file_name include_ai s = (Raise e, s) /\
            (e = unknown_format_code \/
             e = TypeError "'>' not supported between instances of 'str' and 'float'").
Proof.
  destruct r as [[p|p] [c|c] [l|l] n|m]; try discriminate; intros _;
    eexists; (split; [reflexivity|]); auto.
Qed.

(** With the premium and the ratio numbers, as the calculator leaves
    them, it is the f-string of the claims that raises. *)
Lemma format_slack_response_text_claims (env : Environment)
    (premium loss_ratio : number) (claims : string) (num_policies : nat)
    (file_name : option string) (include_ai : bool) (s : Store) :
  format_slack_response env
    (Success (Num premium) (Str claims) (Num loss_ratio) num_policies)
    file_name include_ai s = (Raise unknown_format_code, s).
Proof. reflexivity. Qed.

Lemma format_slack_response_printable (env : Environment) (r : RatioResult)
    (file_name : option string) (include_ai : bool) (s : Store) :
  printable r = true ->
  exists response s1,
    format_slack_response env r file_name include_ai s = (Return response, s1).
Proof.
  destruct r as [[p|p] [c|c] [l|l] n|m]; try discriminate; intros _.
  - destruct (format_slack_response_numbers env p c l n file_name include_ai s)
      as [tail [s1 [E _]]].
    eexists. exists s1. exact E.
  - eexists. exists s. reflexivity.
Qed.

Lemma warning_line_not_at_line_end (tail : string) :
  tail = EmptyString \/
  (exists insight, tail = nl ++ "🤖 *AI Insights:*" ++ nl ++ "_" ++ insight ++ "_") ->
  String.prefix warning_line (nl ++ tail) = false.
Proof.
  intros [->|[insight ->]]; reflexivity.
Qed.

(** C5. A successful result whose figures are numbers is always
    formatted, and in the text the warning line stands right after the
    count of policies exactly when the ratio is strictly above the
    threshold of 75.0.  So the text contains the warning line whenever
    the ratio is above the threshold, and with the ratio not above it
    the text does not contain it, as long as the file name and the
    commentary (if there are any) do not themselves hold a warning
    sign.  The table Premium=[1000,2000], Claims=[500,1900] gives
    premium 3000, claims 2400, the binary64 ratio 80.0 (printed as
    80.0) and a text with the warning line; Premium=[1000],
    Claims=[100] gives the ratio 10.0 and a text without it. *)
Theorem warning_iff_above_threshold :
  (forall (env : Environment) (premium claims loss_ratio : number)
          (num_policies : nat) (file_name : option string) (include_ai : bool)
          (s : Store),
     exists response s1,
       format_slack_response env (numbers premium claims loss_ratio num_policies)
         file_name include_ai s = (Return response, s1) /\
       (String.prefix
          (message_head file_name premium claims loss_ratio num_policies ++ warning_line)
          (text response) = true
        <-> exceeds_75 loss_ratio = true) /\
       (exceeds_75 loss_ratio = true ->
          contains (text response) warning_line = true) /\
       (exceeds_75 loss_ratio = false ->
          sign_free_name file_name = true ->
          commentary_enabled env include_ai = false \/
          commentary_sign_free env premium claims loss_ratio num_policies = true ->
          contains (text response) warning_line = false)) /\
  (exists s1 response,
     calculate_loss_ratio (Samples.serving Samples.high) VNone (fresh initial_session) =
       (Return (numbers (Int 3000) (Int 2400)
                  (Float (S754_finite false 5629499534213120 (-46))) 2), s1) /\
     one_f (Float (S754_finite false 5629499534213120 (-46))) = "80.0" /\
     exceeds_75 (Float (S754_finite false 5629499534213120 (-46))) = true /\
     format_slack_response (Samples.serving Samples.high)
       (numbers (Int 3000) (Int 2400)
          (Float (S754_finite false 5629499534213120 (-46))) 2)
       None true s1 = (Return response, s1) /\
     contains (text response) warning_line = true) /\
  (exists s1 response,
     calculate_loss_ratio (Samples.serving Samples.low) VNone (fresh initial_session) =
       (Return (numbers (Int 1000) (Int 100)
                  (Float (S754_finite false 5629499534213120 (-49))) 1), s1) /\
     one_f (Float (S754_finite false 5629499534213120 (-49))) = "10.0" /\
     exceeds_75 (Float (S754_finite false 5629499534213120 (-49))) = false /\
     format_slack_response (Samples.serving Samples.low)
       (numbers (Int 1000) (Int 100)
          (Float (S754_finite false 5629499534213120 (-49))) 1)
       None true s1 = (Return response, s1) /\
     contains (text response) warning_line = false).
Proof.
  split; [|split].
  - intros env premium claims loss_ratio num_policies file_name include_ai s.
    destruct (format_slack_response_numbers env premium claims loss_ratio
                num_policies file_name include_ai s) as [tail [s1 [E [T [D _]]]]].
    eexists; exists s1. split; [exact E|]. cbn [text].
    rewrite prefix_app_head.
    destruct (exceeds_75 loss_ratio) eqn:G.
    + split; [|split].
      * split; [reflexivity | intros _; apply prefix_app].
      * intros _. apply contains_app.
      * discriminate.
    + split; [|split].
      * cbn [append]. rewrite warning_line_not_at_line_end.
        -- split; discriminate.
        -- destruct T as [T|[content [_ T]]]; [left; exact T | right; eauto].
      * discriminate.
      * intros _ N C.
        assert (F : sign_free tail = true).
        { destruct T as [->|[content [O ->]]]; [reflexivity|].
          destruct C as [C|C].
          - destruct (D C) as [X _]. discriminate X.
          - unfold commentary_sign_free in C. rewrite O in C.
            rewrite !sign_free_app, (sign_free_strip _ C). reflexivity. }
        destruct (contains _ warning_line) eqn:K; [|reflexivity].
        apply sign_free_contains in K; [discriminate K|].
        rewrite !sign_free_app, (sign_free_message_head _ _ _ _ _ N), F.
        reflexivity.
  - do 2 eexists. split; [reflexivity|]. split; [reflexivity|].
    split; [reflexivity|]. split; reflexivity.
  - do 2 eexists. split; [reflexivity|]. split; [reflexivity|].
    split; [reflexivity|]. split; reflexivity.
Qed.

(** The figures as the formatter prints them.  An integer is converted
    to binary64 before it is printed, so 10^16 + 1 loses its last
    digit; 61.25000000000001 is printed as 61.3. *)
Example figures_printed :
  comma_0f (Int 3000) = "3,000" /\
  comma_0f (Int 2400) = "2,400" /\
  one_f (Float Samples.eighty) = "80.0" /\
  one_f (Float Samples.ten) = "10.0" /\
  comma_0f (Int 10000000000000001) = "10,000,000,000,000,000" /\
  comma_0f (Int (-5)) = "-5" /\
  one_f (Int 0) = "0.0" /\
  one_f (Float (S754_finite false 8620171161763841 (-47))) = "61.3".
Proof. repeat split. Qed.

(** The side condition on the file name in C5 is needed for the last
    part only: a file name that itself spells out the warning line puts
    that text into the header, also at ratio 10, while the place after
    the count of policies stays without it. *)
Remark spelled_out_in_file_name :
  exists response,
    format_slack_response (Samples.serving Samples.low)
      (numbers (Int 1000) (Int 100) (Float Samples.ten) 1)
      (Some Samples.spoof_name) false (fresh initial_session) =
      (Return response, fresh initial_session) /\
    contains (text response) warning_line = true /\
    String.prefix
      (message_head (Some Samples.spoof_name) (Int 1000) (Int 100)
         (Float Samples.ten) 1 ++ warning_line)
      (text response) = false.
Proof. eexists. split; [reflexivity|]. split; reflexivity. Qed.

(** C5 speaks of results whose figures are numbers.  The calculator can
    also return a success whose claims are a text (a Claims column of
    text under a premium total that is not above 0); the formatter
    raises on it and gives no text at all. *)
Remark text_claims_not_formatted :
  calculate_loss_ratio (Samples.serving Samples.text_claims) VNone
    (fresh initial_session) =
    (Return (Success (Num (Int 0)) (Str "n/an/a") (Num (Int 0)) 2),
     {| session := initial_session; actions := [ReadExcel (Path EXCEL_FILE)] |}) /\
  format_slack_response (Samples.serving Samples.text_claims)
    (Success (Num (Int 0)) (Str "n/an/a") (Num (Int 0)) 2) None true
    (fresh initial_session) =
    (Raise (ValueError "Unknown format code 'f' for object of type 'str'"),
     fresh initial_session).
Proof. split; reflexivity. Qed.

(* ================================================================= *)
(** ** What a computation leaves untouched *)

Create HintDb session.

Lemma keeps_ret {A : Type} (a : A) : keeps_session (ret a).
Proof. intros s. reflexivity. Qed.

Lemma keeps_raise {A : Type} (e : exn) : keeps_session (@raise A e).
Proof. intros s. reflexivity. Qed.

Lemma keeps_emit (a : action) : keeps_session (emit a).
Proof. intros s. reflexivity. Qed.

Lemma keeps_of_answer {A : Type} (r : exn + A) : keeps_session (of_answer r).
Proof. destruct r; intros s; reflexivity. Qed.

Lemma keeps_bind {A B : Type} (c : M A) (k : A -> M B) :
  keeps_session c -> (forall a, keeps_session (k a)) -> keeps_session (bind c k).
Proof.
  intros Hc Hk s. unfold bind. specialize (Hc s).
  destruct (c s) as [[a|e] s1]; simpl in *.
  - rewrite Hk. exact Hc.
  - exact Hc.
Qed.

Lemma keeps_try_except {A : Type} (c : M A) (h : exn -> M A) :
  keeps_session c -> (forall e, keeps_session (h e)) -> keeps_session (try_except c h).
Proof.
  intros Hc Hh s. unfold try_except. specialize (Hc s).
  destruct (c s) as [[a|e] s1]; simpl in *.
  - exact Hc.
  - rewrite Hh. exact Hc.
Qed.

#[local] Hint Resolve keeps_ret keeps_raise keeps_emit keeps_of_answer : session.
#[local] Hint Extern 2 (keeps_session (bind _ _)) =>
  apply keeps_bind; [|intros ?] : session.
#[local] Hint Extern 2 (keeps_session (try_except _ _)) =>
  apply keeps_try_except; [|intros ?] : session.

Lemma keeps_raise_for_status (response : Response) :
  keeps_session (raise_for_status response).
Proof.
  unfold raise_for_status.
  destruct (_ && _); [auto with session|].
  destruct (_ && _); auto with session.
Qed.

#[local] Hint Resolve keeps_raise_for_status : session.

Lemma keeps_load_table (env : Environment) (file_source : value) :
  keeps_session (load_table env file_source).
Proof.
  unfold load_table.
  destruct file_source; cbn [truthy];
    repeat match goal with
           | |- keeps_session (if ?b then _ else _) => destruct b
           | |- keeps_session (match ?l with [] => _ | _ :: _ => _ end) => destruct l
           end;
    auto 10 with session.
Qed.

Lemma keeps_analyse (env : Environment) (df : DataFrame) :
  keeps_session (analyse env df).
Proof. intros s. rewrite analyse_store. reflexivity. Qed.

Lemma keeps_on_exception (e : exn) : keeps_session (on_exception e).
Proof. destruct e; apply keeps_ret. Qed.

#[local] Hint Resolve keeps_load_table keeps_analyse keeps_on_exception : session.

Lemma keeps_calculate_loss_ratio (env : Environment) (file_source : value) :
  keeps_session (calculate_loss_ratio env file_source).
Proof. unfold calculate_loss_ratio. auto with session. Qed.

Lemma keeps_complete (env : Environment) (system_message user_message : string)
    (max_tokens : nat) :
  keeps_session (complete env system_message user_message max_tokens).
Proof. unfold complete. auto 10 with session. Qed.

#[local] Hint Resolve keeps_calculate_loss_ratio keeps_complete : session.

Lemma keeps_format_comma_0f (v : scalar) : keeps_session (format_comma_0f v).
Proof. destruct v; simpl; auto with session. Qed.

Lemma keeps_format_1f (v : scalar) : keeps_session (format_1f v).
Proof. destruct v; simpl; auto with session. Qed.

Lemma keeps_gt_threshold (v : scalar) : keeps_session (gt_threshold v).
Proof. destruct v; simpl; auto with session. Qed.

#[local] Hint Resolve keeps_format_comma_0f keeps_format_1f keeps_gt_threshold
  : session.

Lemma keeps_generate_ai_insights (env : Environment) (r : RatioResult) :
  keeps_session (generate_ai_insights env r).
Proof. destruct r; cbn [generate_ai_insights]; auto 12 with session. Qed.

#[local] Hint Resolve keeps_generate_ai_insights : session.

Lemma keeps_format_slack_response (env : Environment) (r : RatioResult)
    (file_name : option string) (include_ai : bool) :
  keeps_session (format_slack_response env r file_name include_ai).
Proof.
  destruct r as [p c l n | e]; cbn [format_slack_response]; [|auto with session].
  do 4 (apply keeps_bind; [auto with session | intros ?]). cbv zeta.
  destruct (_ && _); [|auto with session].
  apply keeps_bind; [auto with session|].
  intros [insight|]; [|auto with session].
  destruct (String.eqb insight EmptyString); auto with session.
Qed.

(** ** Calls that always return *)

Lemma calculate_loss_ratio_returns (env : Environment) (file_source : value) (s : Store) :
  exists r s1, calculate_loss_ratio env file_source s = (Return r, s1).
Proof.
  unfold calculate_loss_ratio, try_except.
  destruct (bind (load_table env file_source) (analyse env) s) as [[r|e] s1].
  - eexists; eexists; reflexivity.
  - destruct (on_exception_fails e s1) as [m Hm]. rewrite Hm.
    eexists; eexists; reflexivity.
Qed.

(** A falsy file source is the default source. *)
Lemma calculate_loss_ratio_falsy (env : Environment) (file_source : value) :
  truthy file_source = false ->
  calculate_loss_ratio env file_source = calculate_loss_ratio env VNone.
Proof.
  intros H. unfold calculate_loss_ratio. f_equal. f_equal.
  unfold load_table. rewrite H.
  destruct file_source; reflexivity.
Qed.


(** ** Whitespace *)

Lemma lstrip_only_whitespace (t : string) : only_whitespace t = true -> lstrip t = EmptyString.
Proof.
  assert (G : forall n t, (String.length t <= n)%nat ->
                          only_whitespace t = true -> lstrip t = EmptyString).
  { clear t. induction n as [|n IH]; intros t Hn W.
    - destruct t; [reflexivity | simpl in Hn; lia].
    - destruct t as [|c1 r1]; [reflexivity|].
      cbn [only_whitespace lstrip] in *.
      destruct (is_space1 c1).
      + apply IH; [simpl in Hn; lia | exact W].
      + destruct r1 as [|c2 r2]; [discriminate|].
        destruct (is_space2 c1 c2).
        * apply IH; [simpl in Hn; lia | exact W].
        * destruct r2 as [|c3 r3]; [discriminate|].
          destruct (is_space3 c1 c2 c3); [|discriminate].
          apply IH; [simpl in Hn; lia | exact W]. }
  apply (G (String.length t)). apply Nat.le_refl.
Qed.

Lemma strip_only_whitespace (t : string) : only_whitespace t = true -> strip t = EmptyString.
Proof.
  intros W. unfold strip. rewrite (lstrip_only_whitespace _ W). reflexivity.
Qed.

(* ================================================================= *)
(** ** The endpoints *)

(** C6. A payload with a challenge field is answered with that
    challenge, unchanged, and nothing else happens: the stored file
    locator, the file name and the last analysis result are as before,
    and nothing is sent. *)
Theorem challenge_echoed (env : Environment) (request : Request) (s : Store)
    (payload : dict value) (challenge : value) :
  json request = VDict payload ->
  lookup "challenge" payload = Some challenge ->
  exists s1,
    slack_events env request s = (Return (VDict [("challenge", challenge)]), s1) /\
    LAST_UPLOADED_FILE (session s1) = LAST_UPLOADED_FILE (session s) /\
    LAST_UPLOADED_FILE_NAME (session s1) = LAST_UPLOADED_FILE_NAME (session s) /\
    LAST_ANALYSIS_RESULT (session s1) = LAST_ANALYSIS_RESULT (session s) /\
    sent_since s s1 [].
Proof.
  intros J C. exists s.
  unfold slack_events. rewrite J. unfold py_in, py_getitem, has_key, bind, ret.
  rewrite C. repeat split. apply sent_since_nothing.
Qed.

Lemma challenge_echoed_witness :
  exists s1,
    slack_events (Samples.serving Samples.low) Samples.handshake (fresh Samples.stored) =
      (Return (VDict [("challenge", VStr "abc123")]), s1) /\
    LAST_UPLOADED_FILE (session s1) = LAST_UPLOADED_FILE (session (fresh Samples.stored)) /\
    LAST_UPLOADED_FILE_NAME (session s1) =
      LAST_UPLOADED_FILE_NAME (session (fresh Samples.stored)) /\
    LAST_ANALYSIS_RESULT (session s1) =
      LAST_ANALYSIS_RESULT (session (fresh Samples.stored)) /\
    sent_since (fresh Samples.stored) s1 [].
Proof.
  apply (challenge_echoed (Samples.serving Samples.low) Samples.handshake
           (fresh Samples.stored) [("challenge", VStr "abc123")] (VStr "abc123"));
    reflexivity.
Defined.



(** The same upload delivered again by Slack, with a retry header, is
    a request of the retry kind: it is acknowledged and nothing is
    sent. *)
Remark retried_upload_acknowledged :
  slack_events (Samples.serving Samples.low) Samples.csv_upload_retried
    (fresh Samples.stored) =
    (Return ok, {| session := Samples.stored; actions := [] |}).
Proof. reflexivity. Qed.

(** C8. An Explain request with empty text is answered at once with the
    prompt for a question; the handler ends there, starts no thread and
    sends nothing, and the session is as before. *)
Theorem explain_empty_text (request : Request) (s : Store) :
  form_get "text" EmptyString (form request) = EmptyString ->
  exists s1,
    explain_command request s = (Return (ephemeral ask_a_question), s1) /\
    sent_since s s1 [] /\
    session s1 = session s.
Proof.
  intros T. exists s. unfold explain_command. rewrite T.
  repeat split. apply sent_since_nothing.
Qed.

Lemma explain_empty_text_witness :
  exists s1,
    explain_command Samples.explain_empty (fresh Samples.stored) = (Return (ephemeral ask_a_question), s1) /\
    sent_since (fresh Samples.stored) s1 [] /\
    session s1 = session (fresh Samples.stored).
Proof.
  apply (explain_empty_text Samples.explain_empty (fresh Samples.stored)).
  reflexivity.
Defined.


(** C10. An Explain request whose text is made of whitespace only is
    handled as one with empty text: stripping leaves nothing, the
    prompt for a question is returned at once, no thread is started and
    nothing is sent. *)
Theorem explain_blank_text (request : Request) (s : Store) :
  only_whitespace (form_get "text" EmptyString (form request)) = true ->
  exists s1,
    strip (form_get "text" EmptyString (form request)) = EmptyString /\
    explain_command request s = (Return (ephemeral ask_a_question), s1) /\
    sent_since s s1 [] /\
    session s1 = session s.
Proof.
  intros W. exists s. apply strip_only_whitespace in W.
  unfold explain_command. rewrite W.
  repeat split. apply sent_since_nothing.
Qed.

Lemma explain_blank_text_witness :
  exists s1,
    strip (form_get "text" EmptyString (form Samples.explain_blank)) = EmptyString /\
    explain_command Samples.explain_blank (fresh Samples.stored) = (Return (ephemeral ask_a_question), s1) /\
    sent_since (fresh Samples.stored) s1 [] /\
    session s1 = session (fresh Samples.stored).
Proof.
  apply (explain_blank_text Samples.explain_blank (fresh Samples.stored)).
  reflexivity.
Defined.

(* ================================================================= *)

(* ================================================================= *)
(** * Further properties of the code *)

(** ** Paths through the events endpoint *)

Lemma slack_events_event (env : Environment) (request : Request) (s : Store)
    (payload event : dict value) :
  json request = VDict payload ->
  lookup "challenge" payload = None ->
  is_retry request = false ->
  match lookup "event" payload with Some v => v | None => VDict [] end = VDict event ->
  slack_events env request s =
    if is_text "message" (event_type event) && has_key "files" event
    then bind (handle_file_share env (VDict event)) (fun _ => ret ok) s
    else (Return ok, s).
Proof.
  intros J C R E. unfold slack_events. rewrite J, R.
  unfold py_in at 1. unfold has_key at 1. unfold bind at 1. unfold ret at 1.
  rewrite C. unfold py_get at 1. unfold bind at 1. unfold ret at 1. rewrite E.
  unfold py_get at 1. unfold bind at 1. unfold ret at 1.
  fold (event_type event).
  destruct (is_text "message" (event_type event)); cbn [andb].
  - unfold py_in. unfold bind at 1. unfold ret at 1.
    destruct (has_key "files" event); reflexivity.
  - reflexivity.
Qed.

Lemma has_key_lookup {A : Type} (key : string) (d : dict A) (v : A) :
  lookup key d = Some v -> has_key key d = true.
Proof. intros H. unfold has_key. rewrite H. reflexivity. Qed.

Lemma send_message_to_channel_run (env : Environment) (channel : value)
    (result : RatioResult) (file_name : option string) (include_ai : bool)
    (s s1 : Store) (response : SlackResponse) :
  format_slack_response env result file_name include_ai s = (Return response, s1) ->
  send_message_to_channel env channel result file_name include_ai s =
    (Return tt, logged s1 (PostMessage channel (text response))).
Proof.
  intros F. unfold send_message_to_channel, try_except.
  rewrite (bind_return _ _ _ _ _ F).
  unfold bind, emit, of_answer.
  destruct (chat_postMessage env channel (text response)) as [e|[]]; reflexivity.
Qed.

(** What the formatter's outcome makes of a delivery: a message when
    the formatter returns, nothing when it raises. *)
Lemma send_message_to_channel_outcome (env : Environment) (channel : value)
    (result : RatioResult) (file_name : option string) (include_ai : bool)
    (s s1 : Store) (formatted : Outcome SlackResponse) :
  format_slack_response env result file_name include_ai s = (formatted, s1) ->
  send_message_to_channel env channel result file_name include_ai s =
    (Return tt,
     {| session := session s1;
        actions := actions s1 ++
                   match formatted with
                   | Return response => [PostMessage channel (text response)]
                   | Raise _ => []
                   end |}).
Proof.
  intros F. destruct formatted as [response|e].
  - rewrite (send_message_to_channel_run _ _ _ _ _ _ _ _ F). reflexivity.
  - unfold send_message_to_channel, try_except.
    rewrite (bind_raise _ _ _ _ _ F). unfold ret.
    rewrite app_nil_r. destruct s1; reflexivity.
Qed.

Lemma format_slack_response_outcome (env : Environment) (result : RatioResult)
    (file_name : option string) (include_ai : bool) (s s1 : Store)
    (formatted : Outcome SlackResponse) :
  format_slack_response env result file_name include_ai s = (formatted, s1) ->
  (printable result = true -> exists response, formatted = Return response) /\
  (printable result = false -> s1 = s /\ exists e, formatted = Raise e).
Proof.
  intros F. split; intros P.
  - destruct (format_slack_response_printable env result file_name include_ai s P)
      as [response [s2 E]].
    rewrite E in F. inversion F. exists response. reflexivity.
  - destruct (format_slack_response_text env result file_name include_ai s P)
      as [e [E _]].
    rewrite E in F. inversion F. split; [reflexivity|]. exists e. reflexivity.
Qed.


Lemma slack_events_file_share (env : Environment) (request : Request) (s : Store)
    (payload event : dict value) (files : value) :
  json request = VDict payload ->
  lookup "challenge" payload = None ->
  is_retry request = false ->
  lookup "event" payload = Some (VDict event) ->
  lookup "type" event = Some (VStr "message") ->
  lookup "files" event = Some files ->
  slack_events env request s =
    bind (handle_file_share env (VDict event)) (fun _ => ret ok) s.
Proof.
  intros J C R E T F.
  rewrite (slack_events_event env request s payload event J C R)
    by (rewrite E; reflexivity).
  unfold event_type. rewrite T, (has_key_lookup _ _ _ F). reflexivity.
Qed.

(** X1. A delivery marked as a retry is acknowledged and nothing else
    happens, whatever the event holds: the session and the log of
    outbound calls are as before. *)
Theorem retry_ignored (env : Environment) (request : Request) (s : Store)
    (payload : dict value) :
  json request = VDict payload ->
  lookup "challenge" payload = None ->
  is_retry request = true ->
  slack_events env request s = (Return ok, s).
Proof.
  intros J C R. unfold slack_events. rewrite J, R.
  unfold py_in, has_key, bind, ret. rewrite C. reflexivity.
Qed.

Lemma retry_ignored_witness :
  slack_events (Samples.serving Samples.high) Scenarios.xlsx_upload_retried
    (fresh initial_session) = (Return ok, fresh initial_session).
Proof.
  apply (retry_ignored (Samples.serving Samples.high) Scenarios.xlsx_upload_retried
           (fresh initial_session) [("event", VDict Scenarios.xlsx_event)]);
    reflexivity.
Defined.




(** The upload of a sheet whose Claims are text under a premium total
    of 0 is such a case: the result is stored, and no message is
    posted. *)
Remark text_claims_upload_unanswered :
  exists s1,
    slack_events (Samples.serving Samples.text_claims) Scenarios.xlsx_upload
      (fresh initial_session) = (Return ok, s1) /\
    LAST_ANALYSIS_RESULT (session s1) =
      Some (Success (Num (Int 0)) (Str "n/an/a") (Num (Int 0)) 2) /\
    posts (actions s1) = 0%nat.
Proof. eexists. split; [reflexivity|]. split; reflexivity. Qed.

(** The Analysis command, given the run of the calculator and of the
    formatter it is made of. *)
Lemma lossratio_command_run (env : Environment) (s s1 s2 : Store)
    (result : RatioResult) (formatted : Outcome SlackResponse) :
  calculate_loss_ratio env
    (if truthy (LAST_UPLOADED_FILE (session s))
     then LAST_UPLOADED_FILE (session s) else VNone) s = (Return result, s1) ->
  format_slack_response env result
    (if truthy (LAST_UPLOADED_FILE (session s))
     then LAST_UPLOADED_FILE_NAME (session s) else None)
    true (with_result {| session := session s; actions := actions s1 |} result)
    = (formatted, s2) ->
  lossratio_command env s =
    (match formatted with
     | Return response => Return (jsonify response)
     | Raise e => Raise e
     end, s2).
Proof.
  intros R F.
  pose proof (keeps_calculate_loss_ratio env
                (if truthy (LAST_UPLOADED_FILE (session s))
                 then LAST_UPLOADED_FILE (session s) else VNone) s) as K.
  rewrite R in K. cbn [snd] in K.
  unfold lossratio_command, bind, get_session.
  destruct (truthy (LAST_UPLOADED_FILE (session s))); rewrite R; unfold ret;
    unfold set_LAST_ANALYSIS_RESULT, bind, get_session, put_session;
    rewrite K; unfold with_result in F; cbn [session actions] in F;
    rewrite F; destruct formatted; reflexivity.
Qed.







(** X6. A message event whose files list is empty makes the handler
    raise [IndexError]: the exception leaves the endpoint, nothing is
    stored and nothing is sent. *)
Theorem empty_files_list_raises (env : Environment) (request : Request) (s : Store)
    (payload event : dict value) :
  json request = VDict payload ->
  lookup "challenge" payload = None ->
  is_retry request = false ->
  lookup "event" payload = Some (VDict event) ->
  lookup "type" event = Some (VStr "message") ->
  lookup "files" event = Some (VList []) ->
  slack_events env request s =
    (Raise (OtherException "IndexError" "list index out of range"), s).
Proof.
  intros J C R E T F.
  rewrite (slack_events_file_share env request s payload event _ J C R E T F).
  unfold handle_file_share, py_getitem, py_first, bind. rewrite F. reflexivity.
Qed.

Lemma empty_files_list_raises_witness :
  slack_events (Samples.serving Samples.high) Scenarios.no_files (fresh Samples.stored) =
    (Raise (OtherException "IndexError" "list index out of range"), fresh Samples.stored).
Proof.
  apply (empty_files_list_raises (Samples.serving Samples.high) Scenarios.no_files
           (fresh Samples.stored)
           [("event", VDict Scenarios.no_files_event)] Scenarios.no_files_event);
    reflexivity.
Defined.

(** ** Delivery and commentary *)

(** X7. Delivery never raises and leaves the session as it was.  The
    result is formatted; when the formatter returns, as it does for a
    failure and for a success whose figures are numbers, exactly one
    message with the formatted text is handed to the chat service for
    the channel, and an exception of that service is swallowed; when the
    formatter raises (a success with a text among its figures), that
    exception is swallowed too and nothing is sent. *)
Theorem send_message_never_raises (env : Environment) (channel : value)
    (result : RatioResult) (file_name : option string) (include_ai : bool)
    (s : Store) :
  exists formatted s1,
    format_slack_response env result file_name include_ai s = (formatted, s1) /\
    send_message_to_channel env channel result file_name include_ai s =
      (Return tt,
       {| session := session s;
          actions := actions s1 ++
                     match formatted with
                     | Return response => [PostMessage channel (text response)]
                     | Raise _ => []
                     end |}) /\
    (printable result = true -> exists response, formatted = Return response) /\
    (printable result = false -> s1 = s /\ exists e, formatted = Raise e).
Proof.
  destruct (format_slack_response env result file_name include_ai s)
    as [formatted s1] eqn:F.
  pose proof (keeps_format_slack_response env result file_name include_ai s) as K.
  rewrite F in K. cbn [snd] in K.
  exists formatted, s1. split; [reflexivity|].
  split; [|exact (format_slack_response_outcome _ _ _ _ _ _ _ F)].
  rewrite (send_message_to_channel_outcome _ _ _ _ _ _ _ _ F).
  rewrite K. reflexivity.
Qed.

(** X8. The insight operation never raises and leaves the session
    alone.  For a failed result it answers [None] without calling the
    completion service; for a success whose figures are numbers it
    makes one call with the insight prompt and answers the stripped
    text, or [None] when the service raises; for a success with a text
    among its figures the prompt cannot be written, and it answers
    [None] without a call. *)
Theorem insights_best_effort (env : Environment) (result : RatioResult) (s : Store) :
  exists insight s1,
    generate_ai_insights env result s = (Return insight, s1) /\
    session s1 = session s /\
    match result with
    | Failure _ => insight = None /\ s1 = s
    | Success (Num premium) (Num claims) (Num loss_ratio) num_policies =>
        s1 = logged s (ChatCompletion insight_system
                         (insight_prompt (comma_0f premium) (comma_0f claims)
                            (one_f loss_ratio) num_policies) 200) /\
        insight =
          match chat_completions_create env insight_system
                  (insight_prompt (comma_0f premium) (comma_0f claims)
                     (one_f loss_ratio) num_policies) 200 with
          | inr content => Some (strip content)
          | inl _ => None
          end
    | Success _ _ _ _ => insight = None /\ s1 = s
    end.
Proof.
  destruct result as [[p|p] [c|c] [l|l] n | e];
    try (exists None, s; repeat split; reflexivity).
  change (Success (Num p) (Num c) (Num l) n) with (numbers p c l n).
  rewrite generate_ai_insights_numbers.
  eexists; eexists. repeat split.
Qed.

Lemma answer_actuarial_question_run (env : Environment) (question : string)
    (context_result : option RatioResult) (s : Store) :
  answer_actuarial_question env question context_result s =
    match context_result with
    | Some (Success (Num premium) (Num claims) (Num loss_ratio) num_policies) =>
        (Return
           match chat_completions_create env answer_system
                   (answer_prompt_for question premium claims loss_ratio
                      num_policies) 300 with
           | inr content => strip content
           | inl e => "Sorry, I couldn't generate an answer. Error: " ++ str_exn e
           end,
         logged s (ChatCompletion answer_system
                     (answer_prompt_for question premium claims loss_ratio
                        num_policies) 300))
    | Some (Success _ _ _ _) =>
        (Return ("Sorry, I couldn't generate an answer. Error: "
                   ++ "Unknown format code 'f' for object of type 'str'"), s)
    | _ => (Return no_context_answer, s)
    end.
Proof.
  destruct context_result as [[[p|p] [c|c] [l|l] n | e]|]; try reflexivity.
  unfold answer_actuarial_question, answer_prompt_for, complete, try_except, bind,
    emit, of_answer, format_comma_0f, format_1f, ret.
  destruct (chat_completions_create env _ _ _); reflexivity.
Qed.

Lemma contains_after (a t w : string) :
  contains t w = true -> contains (a ++ t) w = true.
Proof.
  intros H. induction a as [|x a IH]; simpl; [exact H|].
  rewrite IH. apply orb_true_r.
Qed.

(** X9. The answer operation never raises and leaves the session alone.
    Without a successful result to refer to it answers a fixed sentence
    and calls nobody.  With a success whose figures are numbers it
    makes one completion call, whose prompt carries the question word
    for word, and answers the stripped text, or an apology that quotes
    the exception when the service raises.  With a success that has a
    text among its figures the prompt cannot be written: it calls
    nobody and answers the apology that quotes the format error. *)
Theorem answer_best_effort (env : Environment) (question : string)
    (context_result : option RatioResult) (s : Store) :
  exists answer s1,
    answer_actuarial_question env question context_result s = (Return answer, s1) /\
    session s1 = session s /\
    match context_result with
    | Some (Success (Num premium) (Num claims) (Num loss_ratio) num_policies) =>
        s1 = logged s (ChatCompletion answer_system
                         (answer_prompt question (comma_0f premium) (comma_0f claims)
                            (one_f loss_ratio) num_policies) 300) /\
        contains (answer_prompt question (comma_0f premium) (comma_0f claims)
                    (one_f loss_ratio) num_policies)
          ("User Question: " ++ question ++ nl) = true /\
        answer =
          match chat_completions_create env answer_system
                  (answer_prompt question (comma_0f premium) (comma_0f claims)
                     (one_f loss_ratio) num_policies) 300 with
          | inr content => strip content
          | inl e => "Sorry, I couldn't generate an answer. Error: " ++ str_exn e
          end
    | Some (Success _ _ _ _) =>
        answer = "Sorry, I couldn't generate an answer. Error: Unknown format code 'f' for object of type 'str'" /\
        s1 = s
    | _ => answer = no_context_answer /\ s1 = s
    end.
Proof.
  rewrite answer_actuarial_question_run.
  destruct context_result as [[[p|p] [c|c] [l|l] n | e]|];
    try (eexists; exists s; repeat split; reflexivity).
  eexists; eexists. split; [reflexivity|]. split; [reflexivity|].
  split; [reflexivity|]. split; [|reflexivity].
  unfold answer_prompt.
  do 7 apply contains_after.
  apply contains_prefix.
  rewrite !prefix_app_head. apply prefix_app.
Qed.

(** X10. The formatter leaves the session alone.  For a failure and
    for a success whose figures are numbers it returns a response for
    the channel; for a success with a text among its figures it raises
    before any call.  It calls the completion service once, with the
    insight prompt, exactly when the result is a success whose figures
    are numbers, commentary was asked for and the completion key is not
    the placeholder, and otherwise calls nobody. *)
Theorem format_completion_calls (env : Environment) (result : RatioResult)
    (file_name : option string) (include_ai : bool) (s : Store) :
  exists formatted s1,
    format_slack_response env result file_name include_ai s = (formatted, s1) /\
    session s1 = session s /\
    match result with
    | Failure _ =>
        (exists response,
           formatted = Return response /\ response_type response = "in_channel") /\
        s1 = s
    | Success (Num premium) (Num claims) (Num loss_ratio) num_policies =>
        (exists response,
           formatted = Return response /\ response_type response = "in_channel") /\
        actions s1 =
          (actions s ++
           if commentary_enabled env include_ai
           then [ChatCompletion insight_system
                   (insight_prompt (comma_0f premium) (comma_0f claims)
                      (one_f loss_ratio) num_policies) 200]
           else [])%list
    | Success _ _ _ _ =>
        (exists e, formatted = Raise e /\
                   (e = ValueError "Unknown format code 'f' for object of type 'str'" \/
                    e = TypeError "'>' not supported between instances of 'str' and 'float'")) /\
        s1 = s
    end.
Proof.
  destruct result as [[p|p] [c|c] [l|l] n | e];
    try (eexists; exists s; split; [reflexivity|]; split; [reflexivity|];
         split; [|reflexivity]; eexists; split; [reflexivity|]; auto; fail).
  destruct (format_slack_response_numbers env p c l n file_name include_ai s)
    as [tail [s1 [E [_ [D1 D2]]]]].
  unfold numbers in E. rewrite E.
  eexists; exists s1. split; [reflexivity|].
  destruct (commentary_enabled env include_ai).
  - rewrite (D2 eq_refl). split; [reflexivity|].
    split; [|reflexivity]. eexists. split; reflexivity.
  - destruct (D1 eq_refl) as [_ ->]. split; [reflexivity|].
    split; [|rewrite app_nil_r; reflexivity]. eexists. split; reflexivity.
Qed.


(* ================================================================= *)
(** ** The Explain command *)

Lemma explain_command_asked (request : Request) (s : Store) :
  strip (form_get "text" EmptyString (form request)) <> EmptyString ->
  explain_command request s =
    match LAST_ANALYSIS_RESULT (session s) with
    | Some (Success _ _ _ _) =>
        (Return
           (VDict [("response_type", VStr "in_channel");
                   ("text",
                    VStr ("❓ *Question:* "
                            ++ strip (form_get "text" EmptyString (form request))
                            ++ nl ++ nl ++ "🤖 _Thinking..._"))]),
         logged s (ThreadStart (strip (form_get "text" EmptyString (form request)))
                     match lookup "channel_id" (form request) with
                     | Some c => VStr c
                     | None => VNone
                     end))
    | _ => (Return (ephemeral no_analysis_data), s)
    end.
Proof.
  intros Q. unfold explain_command.
  destruct (String.eqb_spec (strip (form_get "text" EmptyString (form request)))
              EmptyString) as [E|_]; [contradiction|].
  unfold bind, get_session.
  destruct (LAST_ANALYSIS_RESULT (session s)) as [[p c l n | e]|]; reflexivity.
Qed.

(** X11. An Explain request that carries a question while the session
    holds no successful analysis (none at all, or a failed one) is
    answered with the no-data notice; no thread is started, nothing is
    sent and the session is as before. *)
Theorem explain_without_analysis (request : Request) (s : Store) :
  strip (form_get "text" EmptyString (form request)) <> EmptyString ->
  LAST_ANALYSIS_RESULT (session s) = None \/
  (exists error, LAST_ANALYSIS_RESULT (session s) = Some (Failure error)) ->
  explain_command request s = (Return (ephemeral no_analysis_data), s).
Proof.
  intros Q H. rewrite (explain_command_asked request s Q).
  destruct H as [-> | [error ->]]; reflexivity.
Qed.

Lemma explain_without_analysis_witness :
  explain_command Scenarios.question (fresh Scenarios.failed) =
    (Return (ephemeral no_analysis_data), fresh Scenarios.failed).
Proof.
  apply (explain_without_analysis Scenarios.question (fresh Scenarios.failed)).
  - discriminate.
  - right. exists "Excel file not found". reflexivity.
Defined.

(** X12. An Explain request that carries a question while the session
    holds a successful analysis is acknowledged at once with the
    stripped question, and exactly one thread is started, for that
    question and the channel of the request; the session is as
    before. *)
Theorem explain_starts_one_thread (request : Request) (s : Store)
    (premium claims loss_ratio : scalar) (num_policies : nat) :
  strip (form_get "text" EmptyString (form request)) <> EmptyString ->
  LAST_ANALYSIS_RESULT (session s) =
    Some (Success premium claims loss_ratio num_policies) ->
  explain_command request s =
    (Return
       (VDict [("response_type", VStr "in_channel");
               ("text",
                VStr ("❓ *Question:* "
                        ++ strip (form_get "text" EmptyString (form request))
                        ++ nl ++ nl ++ "🤖 _Thinking..._"))]),
     {| session := session s;
        actions :=
          actions s ++
          [ThreadStart (strip (form_get "text" EmptyString (form request)))
             match lookup "channel_id" (form request) with
             | Some c => VStr c
             | None => VNone
             end] |}).
Proof.
  intros Q H. rewrite (explain_command_asked request s Q), H. reflexivity.
Qed.

Lemma explain_starts_one_thread_witness :
  explain_command Scenarios.question (fresh Samples.stored) =
    (Return
       (VDict [("response_type", VStr "in_channel");
               ("text",
                VStr ("❓ *Question:* "
                        ++ strip (form_get "text" EmptyString (form Scenarios.question))
                        ++ nl ++ nl ++ "🤖 _Thinking..._"))]),
     {| session := session (fresh Samples.stored);
        actions :=
          actions (fresh Samples.stored) ++
          [ThreadStart (strip (form_get "text" EmptyString (form Scenarios.question)))
             match lookup "channel_id" (form Scenarios.question) with
             | Some c => VStr c
             | None => VNone
             end] |}).
Proof.
  apply (explain_starts_one_thread Scenarios.question (fresh Samples.stored)
           (Num (Int 1000)) (Num (Int 100)) (Num (Float Samples.ten)) 1).
  - discriminate.
  - reflexivity.
Defined.

Lemma answer_actuarial_question_returns (env : Environment) (question : string)
    (context_result : option RatioResult) (s : Store) :
  exists answer s1,
    answer_actuarial_question env question context_result s = (Return answer, s1).
Proof.
  rewrite answer_actuarial_question_run.
  destruct context_result as [[[p|p] [c|c] [l|l] n | e]|];
    eexists; eexists; reflexivity.
Qed.

(** X13. The background thread never raises and leaves the session
    alone: it asks for an answer about the analysis the session holds
    when it runs, and hands exactly one message, the answer under its
    heading, to the chat service for the channel; an exception of that
    service is swallowed. *)
Theorem answer_thread_posts_once (env : Environment) (question : string)
    (channel_id : value) (s : Store) :
  exists answer s1,
    answer_actuarial_question env question (LAST_ANALYSIS_RESULT (session s)) s =
      (Return answer, s1) /\
    generate_and_post_answer env question channel_id s =
      (Return tt,
       {| session := session s;
          actions := actions s1 ++
                     [PostMessage channel_id ("🤖 *AI Answer:*" ++ nl ++ answer)] |}).
Proof.
  destruct (answer_actuarial_question_returns env question
              (LAST_ANALYSIS_RESULT (session s)) s) as [answer [s1 A]].
  assert (K : session s1 = session s).
  { rewrite answer_actuarial_question_run in A.
    destruct (LAST_ANALYSIS_RESULT (session s)) as [[[p|p] [c|c] [l|l] n | e]|];
      inversion A; reflexivity. }
  exists answer, s1. split; [exact A|].
  unfold generate_and_post_answer, try_except.
  unfold bind at 1. unfold get_session. cbn beta iota.
  rewrite (bind_return _ _ _ _ _ A).
  unfold bind, emit, of_answer. rewrite K.
  destruct (chat_postMessage env channel_id _) as [x|[]]; reflexivity.
Qed.

(* ================================================================= *)
(** ** What a computation appends to the log *)

Create HintDb log.

Lemma store_shape (s s1 : Store) (new : list action) :
  session s1 = session s ->
  actions s1 = (actions s ++ new)%list ->
  s1 = {| session := session s; actions := actions s ++ new |}.
Proof. destruct s1; simpl; intros -> ->; reflexivity. Qed.

Lemma produces_weaken {A : Type} (Q Q' : list action -> Prop) (c : M A) :
  (forall l, Q l -> Q' l) -> produces Q c -> produces Q' c.
Proof.
  intros W H s. destruct (H s) as [new [E HQ]]. exists new. split; [exact E | auto].
Qed.

Lemma produces_nothing {A : Type} (Q : list action -> Prop) (c : M A) :
  Q [] -> (forall s, snd (c s) = s) -> produces Q c.
Proof.
  intros HQ H s. exists []. rewrite H, app_nil_r. split; [reflexivity | exact HQ].
Qed.

Lemma produces_emit (Q : list action -> Prop) (a : action) :
  Q [a] -> produces Q (emit a).
Proof. intros HQ s. exists [a]. split; [reflexivity | exact HQ]. Qed.

Lemma produces_bind {A B : Type} (Q1 Q2 Q : list action -> Prop)
    (c : M A) (k : A -> M B) :
  produces Q1 c ->
  (forall a, produces Q2 (k a)) ->
  (forall l1, Q1 l1 -> Q l1) ->
  (forall l1 l2, Q1 l1 -> Q2 l2 -> Q (l1 ++ l2)%list) ->
  produces Q (bind c k).
Proof.
  intros Hc Hk Hl Happ s. unfold bind.
  destruct (Hc s) as [l1 [E1 H1]].
  destruct (c s) as [[a|e] s1]; cbn [snd] in *.
  - destruct (Hk a s1) as [l2 [E2 H2]].
    exists (l1 ++ l2)%list. rewrite E2, E1, app_assoc.
    split; [reflexivity | auto].
  - exists l1. split; [exact E1 | auto].
Qed.

Lemma produces_try_except {A : Type} (Q1 Q2 Q : list action -> Prop)
    (c : M A) (h : exn -> M A) :
  produces Q1 c ->
  (forall e, produces Q2 (h e)) ->
  (forall l1, Q1 l1 -> Q l1) ->
  (forall l1 l2, Q1 l1 -> Q2 l2 -> Q (l1 ++ l2)%list) ->
  produces Q (try_except c h).
Proof.
  intros Hc Hh Hl Happ s. unfold try_except.
  destruct (Hc s) as [l1 [E1 H1]].
  destruct (c s) as [[a|e] s1]; cbn [snd] in *.
  - exists l1. split; [exact E1 | auto].
  - destruct (Hh e s1) as [l2 [E2 H2]].
    exists (l1 ++ l2)%list. rewrite E2, E1, app_assoc.
    split; [reflexivity | auto].
Qed.

(** The same for a property every logged call has. *)
Lemma all_bind {A B : Type} (P : action -> Prop) (c : M A) (k : A -> M B) :
  produces (Forall P) c -> (forall a, produces (Forall P) (k a)) ->
  produces (Forall P) (bind c k).
Proof.
  intros Hc Hk. apply (produces_bind (Forall P) (Forall P)); auto.
  intros l1 l2 H1 H2. apply Forall_app. split; assumption.
Qed.

Lemma all_try_except {A : Type} (P : action -> Prop) (c : M A) (h : exn -> M A) :
  produces (Forall P) c -> (forall e, produces (Forall P) (h e)) ->
  produces (Forall P) (try_except c h).
Proof.
  intros Hc Hh. apply (produces_try_except (Forall P) (Forall P)); auto.
  intros l1 l2 H1 H2. apply Forall_app. split; assumption.
Qed.

Lemma all_ret {A : Type} (P : action -> Prop) (a : A) : produces (Forall P) (ret a).
Proof. apply produces_nothing; [constructor | reflexivity]. Qed.

Lemma all_raise {A : Type} (P : action -> Prop) (e : exn) :
  produces (Forall P) (@raise A e).
Proof. apply produces_nothing; [constructor | reflexivity]. Qed.

Lemma all_of_answer {A : Type} (P : action -> Prop) (r : exn + A) :
  produces (Forall P) (of_answer r).
Proof. destruct r; [apply all_raise | apply all_ret]. Qed.

Lemma all_emit (P : action -> Prop) (a : action) :
  P a -> produces (Forall P) (emit a).
Proof. intros H. apply produces_emit. constructor; [exact H | constructor]. Qed.

Lemma all_get_session (P : action -> Prop) : produces (Forall P) get_session.
Proof. apply produces_nothing; [constructor | reflexivity]. Qed.

Lemma all_put_session (P : action -> Prop) (st : SessionState) :
  produces (Forall P) (put_session st).
Proof.
  intros s. exists []. cbn. rewrite app_nil_r. split; [reflexivity | constructor].
Qed.

#[local] Hint Resolve all_ret all_raise all_of_answer all_get_session
  all_put_session : log.
#[local] Hint Extern 2 (produces (Forall _) (bind _ _)) =>
  apply all_bind; [|intros ?] : log.
#[local] Hint Extern 2 (produces (Forall _) (try_except _ _)) =>
  apply all_try_except; [|intros ?] : log.
#[local] Hint Extern 1 (produces (Forall _) (emit _)) =>
  apply all_emit; cbn; auto : log.

Lemma all_raise_for_status (P : action -> Prop) (response : Response) :
  produces (Forall P) (raise_for_status response).
Proof.
  unfold raise_for_status.
  destruct (_ && _); [auto with log|].
  destruct (_ && _); auto with log.
Qed.

#[local] Hint Resolve all_raise_for_status : log.

(** ** What the calculator reads *)

Lemma fetch_for_read (env : Environment) (file_source : value) (src : excel_input) :
  fetch_for env file_source (ReadExcel src).
Proof. split; [reflexivity | intros address authorization H; discriminate H]. Qed.

#[local] Hint Resolve fetch_for_read : log.

Lemma all_load_table (env : Environment) (file_source : value) :
  produces (Forall (fetch_for env file_source)) (load_table env file_source).
Proof.
  unfold load_table.
  destruct file_source as [| b | z | q | t | items | entries];
    try solve [destruct (truthy _); auto 10 with log].
  destruct (truthy (VStr t) && startswith t "http") eqn:C.
  - apply andb_true_iff in C. destruct C as [_ C].
    apply all_bind; [|intros ?; auto 10 with log].
    apply all_emit. split; [reflexivity|].
    intros address authorization [= <- <-]. auto.
  - destruct (truthy (VStr t)); auto 10 with log.
Qed.

Lemma all_calculate_loss_ratio (env : Environment) (file_source : value) :
  produces (Forall (fetch_for env file_source)) (calculate_loss_ratio env file_source).
Proof.
  unfold calculate_loss_ratio.
  apply all_try_except.
  - apply all_bind; [apply all_load_table|].
    intros df. apply produces_nothing; [constructor | apply analyse_store].
  - intros e. apply produces_nothing; [constructor|].
    intros s. destruct (on_exception_fails e s) as [m ->]. reflexivity.
Qed.

(** X14. Whatever the file source, the calculator leaves the session
    alone and only ever downloads or parses: it posts nothing, asks for
    no commentary and starts no thread.  It downloads only when the
    source is a text that starts with http, from exactly that address,
    and sends the bot token as bearer authorization with the request. *)
Theorem calculator_fetches_only (env : Environment) (file_source : value) (s : Store) :
  exists result new,
    calculate_loss_ratio env file_source s =
      (Return result, {| session := session s; actions := actions s ++ new |}) /\
    Forall (fun a => is_fetch a = true) new /\
    (forall address authorization,
       In (HttpGet address authorization) new ->
       file_source = VStr address /\
       startswith address "http" = true /\
       authorization = "Bearer " ++ SLACK_BOT_TOKEN env).
Proof.
  destruct (calculate_loss_ratio_returns env file_source s) as [result [s1 R]].
  destruct (all_calculate_loss_ratio env file_source s) as [new [E H]].
  pose proof (keeps_calculate_loss_ratio env file_source s) as K.
  rewrite R in E, K. cbn [snd] in E, K.
  exists result, new. rewrite R, (store_shape s s1 new K E).
  split; [reflexivity|]. rewrite Forall_forall in H. split.
  - apply Forall_forall. intros a Ha. exact (proj1 (H a Ha)).
  - intros address authorization Ha.
    exact (proj2 (H _ Ha) address authorization eq_refl).
Qed.

Lemma startswith_http_truthy (address : string) :
  startswith address "http" = true -> truthy (VStr address) = true.
Proof. destruct address; [discriminate | reflexivity]. Qed.

(** X15. When the download of a remote source fails, because the
    request raises or because the server answers with a status from 400
    to 599, the calculator returns the failure whose text starts with
    "Failed to download file: " and tells why; the spreadsheet parser
    is never called. *)
Theorem download_failure_reported (env : Environment) (address : string) (s : Store) :
  startswith address "http" = true ->
  (forall message,
     requests_get env address ("Bearer " ++ SLACK_BOT_TOKEN env) =
       inl (RequestException message) ->
     calculate_loss_ratio env (VStr address) s =
       (Return (Failure ("Failed to download file: " ++ message)),
        logged s (HttpGet address ("Bearer " ++ SLACK_BOT_TOKEN env)))) /\
  (forall response,
     requests_get env address ("Bearer " ++ SLACK_BOT_TOKEN env) = inr response ->
     (400 <= status_code response < 600)%nat ->
     calculate_loss_ratio env (VStr address) s =
       (Return (Failure ("Failed to download file: "
                           ++ string_of_nat (status_code response)
                           ++ (if (status_code response <? 500)%nat
                               then " Client Error: " else " Server Error: ")
                           ++ reason response ++ " for url: " ++ url response)),
        logged s (HttpGet address ("Bearer " ++ SLACK_BOT_TOKEN env)))).
Proof.
  intros H. pose proof (startswith_http_truthy _ H) as T.
  split.
  - intros message G.
    unfold calculate_loss_ratio, try_except, load_table, bind, emit.
    rewrite T, H. cbn [andb]. rewrite G. reflexivity.
  - intros response G [Lo Hi].
    unfold calculate_loss_ratio, try_except, load_table, bind, emit.
    rewrite T, H. cbn [andb]. rewrite G. cbn [of_answer ret].
    unfold raise_for_status.
    destruct (status_code response <? 500)%nat eqn:C.
    + apply Nat.leb_le in Lo. rewrite Lo. cbn [andb]. reflexivity.
    + apply Nat.leb_le in Lo. rewrite Lo. cbn [andb].
      apply Nat.ltb_ge in C. apply Nat.leb_le in C. rewrite C.
      apply Nat.ltb_lt in Hi. rewrite Hi. cbn [andb]. reflexivity.
Qed.

Lemma download_failure_reported_witness :
  (forall message,
     requests_get Scenarios.offline "https://files.slack.com/book.xlsx"
       ("Bearer " ++ SLACK_BOT_TOKEN Scenarios.offline) =
       inl (RequestException message) ->
     calculate_loss_ratio Scenarios.offline (VStr "https://files.slack.com/book.xlsx")
       (fresh initial_session) =
       (Return (Failure ("Failed to download file: " ++ message)),
        logged (fresh initial_session)
          (HttpGet "https://files.slack.com/book.xlsx"
             ("Bearer " ++ SLACK_BOT_TOKEN Scenarios.offline)))) /\
  (forall response,
     requests_get Scenarios.offline "https://files.slack.com/book.xlsx"
       ("Bearer " ++ SLACK_BOT_TOKEN Scenarios.offline) = inr response ->
     (400 <= status_code response < 600)%nat ->
     calculate_loss_ratio Scenarios.offline (VStr "https://files.slack.com/book.xlsx")
       (fresh initial_session) =
       (Return (Failure ("Failed to download file: "
                           ++ string_of_nat (status_code response)
                           ++ (if (status_code response <? 500)%nat
                               then " Client Error: " else " Server Error: ")
                           ++ reason response ++ " for url: " ++ url response)),
        logged (fresh initial_session)
          (HttpGet "https://files.slack.com/book.xlsx"
             ("Bearer " ++ SLACK_BOT_TOKEN Scenarios.offline)))).
Proof.
  apply (download_failure_reported Scenarios.offline
           "https://files.slack.com/book.xlsx" (fresh initial_session)).
  reflexivity.
Defined.

(** X16. A file source that is truthy but is no text (a number, a list,
    an object) has no [startswith]: the calculator reads nothing and
    returns the generic failure that quotes the [AttributeError]. *)
Theorem non_text_source_reported (env : Environment) (file_source : value) (s : Store) :
  truthy file_source = true ->
  (forall t, file_source <> VStr t) ->
  calculate_loss_ratio env file_source s =
    (Return (Failure ("Error reading file: '" ++ type_name file_source
                        ++ "' object has no attribute 'startswith'")), s).
Proof.
  intros T N.
  unfold calculate_loss_ratio, try_except, bind, load_table.
  destruct file_source; try (rewrite T; reflexivity).
  exfalso. exact (N s0 eq_refl).
Qed.

Lemma non_text_source_reported_witness :
  calculate_loss_ratio (Samples.serving Samples.high) (VInt 5) (fresh initial_session) =
    (Return (Failure ("Error reading file: '" ++ type_name (VInt 5)
                        ++ "' object has no attribute 'startswith'")),
     fresh initial_session).
Proof.
  apply (non_text_source_reported (Samples.serving Samples.high) (VInt 5)
           (fresh initial_session)).
  - reflexivity.
  - intros t H. discriminate H.
Defined.

(** ** The Analysis command end to end *)

Lemma calculate_loss_ratio_default_missing (env : Environment) (file_source : value)
    (s : Store) (message : string) :
  truthy file_source = false ->
  pd_read_excel env (Path EXCEL_FILE) = inl (FileNotFoundError message) ->
  calculate_loss_ratio env file_source s =
    (Return (Failure "Excel file not found"), logged s (ReadExcel (Path EXCEL_FILE))).
Proof.
  intros T P. rewrite (calculate_loss_ratio_falsy env _ T).
  unfold calculate_loss_ratio, try_except, load_table, bind, emit.
  cbn [truthy]. rewrite P. reflexivity.
Qed.

(** X17. With no usable stored locator and the default spreadsheet
    missing, the Analysis command answers with the error message
    "Excel file not found" (no file name in it), stores that failure as
    the last analysis and has only tried to read the default path. *)
Theorem lossratio_default_missing (env : Environment) (s : Store) (message : string) :
  truthy (LAST_UPLOADED_FILE (session s)) = false ->
  pd_read_excel env (Path EXCEL_FILE) = inl (FileNotFoundError message) ->
  lossratio_command env s =
    (Return (VDict [("response_type", VStr "in_channel");
                    ("text", VStr "❌ *Error:* Excel file not found")]),
     {| session :=
          {| LAST_UPLOADED_FILE := LAST_UPLOADED_FILE (session s);
             LAST_UPLOADED_FILE_NAME := LAST_UPLOADED_FILE_NAME (session s);
             LAST_ANALYSIS_RESULT := Some (Failure "Excel file not found") |};
        actions := actions s ++ [ReadExcel (Path EXCEL_FILE)] |}).
Proof.
  intros T P.
  apply (lossratio_command_run env s (logged s (ReadExcel (Path EXCEL_FILE))) _
           (Failure "Excel file not found")
           (Return {| response_type := "in_channel";
                      text := "❌ *Error:* Excel file not found" |})).
  - rewrite T. apply (calculate_loss_ratio_default_missing env VNone s message);
      [reflexivity | exact P].
  - rewrite T. reflexivity.
Qed.

Lemma lossratio_default_missing_witness :
  lossratio_command Scenarios.offline (fresh initial_session) =
    (Return (VDict [("response_type", VStr "in_channel");
                    ("text", VStr "❌ *Error:* Excel file not found")]),
     {| session :=
          {| LAST_UPLOADED_FILE := LAST_UPLOADED_FILE (session (fresh initial_session));
             LAST_UPLOADED_FILE_NAME :=
               LAST_UPLOADED_FILE_NAME (session (fresh initial_session));
             LAST_ANALYSIS_RESULT := Some (Failure "Excel file not found") |};
        actions := actions (fresh initial_session) ++ [ReadExcel (Path EXCEL_FILE)] |}).
Proof.
  apply (lossratio_default_missing Scenarios.offline (fresh initial_session)
           "No such file or directory");
    reflexivity.
Defined.

(** X18. An Analysis command whose calculation fails replaces whatever
    analysis the session held, also a successful one: an Explain
    request with a question that comes next gets the no-data notice and
    starts no thread. *)
Theorem failed_analysis_hides_previous (env : Environment) (request : Request)
    (s s1 : Store) (error : string) :
  calculate_loss_ratio env
    (if truthy (LAST_UPLOADED_FILE (session s))
     then LAST_UPLOADED_FILE (session s) else VNone) s = (Return (Failure error), s1) ->
  strip (form_get "text" EmptyString (form request)) <> EmptyString ->
  exists body s2,
    lossratio_command env s = (Return body, s2) /\
    LAST_ANALYSIS_RESULT (session s2) = Some (Failure error) /\
    explain_command request s2 = (Return (ephemeral no_analysis_data), s2).
Proof.
  intros R Q.
  set (s2 := with_result {| session := session s; actions := actions s1 |}
               (Failure error)).
  eexists. exists s2.
  split; [exact (lossratio_command_run env s s1 s2 _ _ R
                   (format_slack_response_failure env error _ true s2))|].
  split; [reflexivity|].
  rewrite (explain_command_asked request s2 Q). reflexivity.
Qed.

Lemma failed_analysis_hides_previous_witness :
  exists body s2,
    lossratio_command Scenarios.offline (fresh Samples.stored) = (Return body, s2) /\
    LAST_ANALYSIS_RESULT (session s2) =
      Some (Failure ("Failed to download file: 403 Client Error: Forbidden for url: "
                       ++ "https://files.slack.com/book.xlsx")) /\
    explain_command Scenarios.question s2 = (Return (ephemeral no_analysis_data), s2).
Proof.
  apply (failed_analysis_hides_previous Scenarios.offline Scenarios.question
           (fresh Samples.stored)
           (logged (fresh Samples.stored)
              (HttpGet "https://files.slack.com/book.xlsx" "Bearer xoxb-1"))).
  - reflexivity.
  - discriminate.
Defined.

(* ================================================================= *)
(** ** An invariant of the session *)

Lemma keeps_preserves {A : Type} (I : SessionState -> Prop) (c : M A) :
  keeps_session c -> preserves I c.
Proof. intros K s H. rewrite K. exact H. Qed.

Lemma preserves_bind {A B : Type} (I : SessionState -> Prop) (c : M A) (k : A -> M B) :
  preserves I c -> (forall a, preserves I (k a)) -> preserves I (bind c k).
Proof.
  intros Hc Hk s H. unfold bind. specialize (Hc s H).
  destruct (c s) as [[a|e] s1]; cbn [snd] in *.
  - apply Hk. exact Hc.
  - exact Hc.
Qed.

Lemma keeps_py_in (key : string) (container : value) : keeps_session (py_in key container).
Proof. destruct container; intros st; reflexivity. Qed.

Lemma keeps_py_get (container : value) (key : string) (default : value) :
  keeps_session (py_get container key default).
Proof. destruct container; intros st; reflexivity. Qed.

Lemma keeps_py_getitem (container : value) (key : string) :
  keeps_session (py_getitem container key).
Proof.
  destruct container as [| | | | t | items | entries]; intros st; try reflexivity.
  cbn. destruct (lookup key entries); reflexivity.
Qed.

Lemma keeps_py_first (container : value) : keeps_session (py_first container).
Proof.
  destruct container as [| | | | t | [|v items] |]; intros st; try reflexivity.
  cbn. destruct (String.eqb t EmptyString); reflexivity.
Qed.

Lemma keeps_send_message_to_channel (env : Environment) (channel : value)
    (result : RatioResult) (file_name : option string) (include_ai : bool) :
  keeps_session (send_message_to_channel env channel result file_name include_ai).
Proof.
  unfold send_message_to_channel.
  apply keeps_try_except; [|intros e; apply keeps_ret].
  apply keeps_bind; [apply keeps_format_slack_response|].
  intros response. auto with session.
Qed.

Lemma keeps_explain_command (request : Request) : keeps_session (explain_command request).
Proof.
  unfold explain_command.
  destruct (String.eqb _ _); [apply keeps_ret|].
  intros s. unfold bind, get_session. cbn beta iota.
  destruct (LAST_ANALYSIS_RESULT (session s)) as [[p c l n | e]|]; reflexivity.
Qed.

Lemma session_ok_result (st : SessionState) (r : option RatioResult) :
  session_ok st ->
  session_ok {| LAST_UPLOADED_FILE := LAST_UPLOADED_FILE st;
                LAST_UPLOADED_FILE_NAME := LAST_UPLOADED_FILE_NAME st;
                LAST_ANALYSIS_RESULT := r |}.
Proof. intros H. exact H. Qed.

Lemma preserves_set_LAST_ANALYSIS_RESULT (result : RatioResult) :
  preserves session_ok (set_LAST_ANALYSIS_RESULT result).
Proof. intros s H. cbn. exact H. Qed.

Lemma preserves_handle_file_share (env : Environment) (event : value) :
  preserves session_ok (handle_file_share env event).
Proof.
  unfold handle_file_share.
  apply preserves_bind; [apply keeps_preserves, keeps_py_getitem|]. intros files.
  apply preserves_bind; [apply keeps_preserves, keeps_py_first|]. intros file_info.
  apply preserves_bind; [apply keeps_preserves, keeps_py_get|]. intros file_url.
  apply preserves_bind; [apply keeps_preserves, keeps_py_get|]. intros file_name.
  destruct file_name as [| | | | name | |];
    try (apply keeps_preserves, keeps_raise).
  destruct (endswith_any name spreadsheet_extensions) eqn:X.
  - intros s _.
    unfold set_LAST_UPLOADED_FILE, set_LAST_UPLOADED_FILE_NAME, get_session, put_session.
    unfold bind at 1. unfold bind at 1. unfold bind at 1. unfold bind at 1.
    cbn beta iota.
    cbn [session actions LAST_UPLOADED_FILE LAST_UPLOADED_FILE_NAME LAST_ANALYSIS_RESULT].
    match goal with
    | |- session_ok (session (snd (bind ?c ?k ?s0))) =>
        apply (preserves_bind session_ok c k)
    end.
    + apply keeps_preserves, keeps_calculate_loss_ratio.
    + intros result.
      apply preserves_bind; [apply preserves_set_LAST_ANALYSIS_RESULT|]. intros _.
      apply preserves_bind; [apply keeps_preserves, keeps_py_getitem|]. intros channel.
      apply keeps_preserves, keeps_send_message_to_channel.
    + exact X.
  - apply preserves_bind; [apply keeps_preserves, keeps_py_getitem|]. intros channel.
    apply keeps_preserves, keeps_send_message_to_channel.
Qed.

Lemma preserves_slack_events (env : Environment) (request : Request) :
  preserves session_ok (slack_events env request).
Proof.
  unfold slack_events.
  apply preserves_bind; [apply keeps_preserves, keeps_py_in|]. intros has_challenge.
  destruct has_challenge.
  - apply preserves_bind; [apply keeps_preserves, keeps_py_getitem|]. intros c.
    apply keeps_preserves, keeps_ret.
  - destruct (is_retry request); [apply keeps_preserves, keeps_ret|].
    apply preserves_bind; [apply keeps_preserves, keeps_py_get|]. intros event.
    apply preserves_bind; [apply keeps_preserves, keeps_py_get|]. intros event_type.
    apply preserves_bind.
    + destruct (is_text "message" event_type);
        [apply keeps_preserves, keeps_py_in | apply keeps_preserves, keeps_ret].
    + intros has_files. destruct has_files; [|apply keeps_preserves, keeps_ret].
      apply preserves_bind; [apply preserves_handle_file_share|]. intros _.
      apply keeps_preserves, keeps_ret.
Qed.

Lemma preserves_lossratio_command (env : Environment) :
  preserves session_ok (lossratio_command env).
Proof.
  unfold lossratio_command.
  apply preserves_bind; [apply keeps_preserves; intros s; reflexivity|]. intros st.
  apply preserves_bind.
  - destruct (truthy (LAST_UPLOADED_FILE st)); apply keeps_preserves;
      (apply keeps_bind; [apply keeps_calculate_loss_ratio | intros r; apply keeps_ret]).
  - intros [result file_name].
    apply preserves_bind; [apply preserves_set_LAST_ANALYSIS_RESULT|]. intros _.
    apply preserves_bind; [apply keeps_preserves, keeps_format_slack_response|].
    intros response. apply keeps_preserves, keeps_ret.
Qed.

(** X19. The session starts out, and stays under every request to the
    three endpoints, whether the handler returns or raises, in a state
    where a stored name is the name of a spreadsheet (it ends in .xlsx
    or .xls) and where no locator is stored without a name. *)
Theorem session_invariant :
  session_ok initial_session /\
  (forall (env : Environment) (request : Request) (s : Store),
     session_ok (session s) ->
     session_ok (session (snd (slack_events env request s))) /\
     session_ok (session (snd (lossratio_command env s))) /\
     session_ok (session (snd (explain_command request s)))).
Proof.
  split; [reflexivity|].
  intros env request s H. split; [|split].
  - apply preserves_slack_events. exact H.
  - apply preserves_lossratio_command. exact H.
  - rewrite keeps_explain_command. exact H.
Qed.

(** ** The health endpoint *)

(** X20. The health report tells only whether each credential differs
    from its placeholder: two environments that agree on that get the
    same report, whatever the credentials are. *)
Theorem health_check_hides_credentials (env1 env2 : Environment) :
  (SLACK_BOT_TOKEN env1 = SLACK_PLACEHOLDER <-> SLACK_BOT_TOKEN env2 = SLACK_PLACEHOLDER) ->
  (DEEPSEEK_API_KEY env1 = DEEPSEEK_PLACEHOLDER <->
   DEEPSEEK_API_KEY env2 = DEEPSEEK_PLACEHOLDER) ->
  health_check env1 = health_check env2.
Proof.
  intros HS HD. unfold health_check, credential_status.
  destruct (String.eqb_spec (SLACK_BOT_TOKEN env1) SLACK_PLACEHOLDER) as [S1|S1],
           (String.eqb_spec (SLACK_BOT_TOKEN env2) SLACK_PLACEHOLDER) as [S2|S2],
           (String.eqb_spec (DEEPSEEK_API_KEY env1) DEEPSEEK_PLACEHOLDER) as [D1|D1],
           (String.eqb_spec (DEEPSEEK_API_KEY env2) DEEPSEEK_PLACEHOLDER) as [D2|D2];
    try reflexivity; exfalso; tauto.
Qed.

Lemma health_check_hides_credentials_witness :
  health_check (Scenarios.advised Samples.high) =
  health_check (Scenarios.rotated Samples.high).
Proof.
  apply (health_check_hides_credentials (Scenarios.advised Samples.high)
           (Scenarios.rotated Samples.high));
    split; intros H; discriminate H.
Defined.

(* ================================================================= *)
(** ** What the endpoints send *)

Lemma all_py_in (P : action -> Prop) (key : string) (container : value) :
  produces (Forall P) (py_in key container).
Proof. destruct container; cbn; auto with log. Qed.

Lemma all_py_get (P : action -> Prop) (container : value) (key : string)
    (default : value) :
  produces (Forall P) (py_get container key default).
Proof. destruct container; cbn; auto with log. Qed.

Lemma all_py_getitem (P : action -> Prop) (container : value) (key : string) :
  produces (Forall P) (py_getitem container key).
Proof.
  destruct container as [| | | | t | items | entries]; cbn; auto with log.
  destruct (lookup key entries); auto with log.
Qed.

Lemma all_py_first (P : action -> Prop) (container : value) :
  produces (Forall P) (py_first container).
Proof.
  destruct container as [| | | | t | [|v items] |]; cbn; auto with log.
  destruct (String.eqb t EmptyString); auto with log.
Qed.

#[local] Hint Resolve all_py_in all_py_get all_py_getitem all_py_first : log.

Lemma fetch_reads (env : Environment) (file_source : value) (l : list action) :
  Forall (fetch_for env file_source) l -> Forall reads_or_comments l.
Proof.
  intros H. apply Forall_forall. rewrite Forall_forall in H.
  intros a Ha. left. exact (proj1 (H a Ha)).
Qed.

Lemma reads_calculate_loss_ratio (env : Environment) (file_source : value) :
  produces (Forall reads_or_comments) (calculate_loss_ratio env file_source).
Proof.
  apply (produces_weaken (Forall (fetch_for env file_source)));
    [apply fetch_reads | apply all_calculate_loss_ratio].
Qed.

Lemma all_format_comma_0f (P : action -> Prop) (v : scalar) :
  produces (Forall P) (format_comma_0f v).
Proof. destruct v; cbn; auto with log. Qed.

Lemma all_format_1f (P : action -> Prop) (v : scalar) :
  produces (Forall P) (format_1f v).
Proof. destruct v; cbn; auto with log. Qed.

Lemma all_gt_threshold (P : action -> Prop) (v : scalar) :
  produces (Forall P) (gt_threshold v).
Proof. destruct v; cbn; auto with log. Qed.

#[local] Hint Resolve all_format_comma_0f all_format_1f all_gt_threshold : log.

Lemma reads_generate_ai_insights (env : Environment) (result : RatioResult) :
  produces (Forall reads_or_comments) (generate_ai_insights env result).
Proof.
  destruct result as [p c l n | e]; cbn [generate_ai_insights]; [|auto with log].
  unfold complete.
  apply all_try_except; [|intros e; auto with log].
  do 3 (apply all_bind; [auto with log | intros ?]).
  apply all_bind; [|intros insight; auto with log].
  apply all_bind; [apply all_emit; right; reflexivity|].
  intros _. auto with log.
Qed.

Lemma reads_format_slack_response (env : Environment) (result : RatioResult)
    (file_name : option string) (include_ai : bool) :
  produces (Forall reads_or_comments)
    (format_slack_response env result file_name include_ai).
Proof.
  destruct result as [p c l n | e]; [|cbn; auto with log].
  unfold format_slack_response.
  do 4 (apply all_bind; [auto with log | intros ?]). cbv zeta.
  destruct (_ && _); [|auto with log].
  apply all_bind; [apply reads_generate_ai_insights|].
  intros [insight|]; [|auto with log].
  destruct (String.eqb insight EmptyString); auto with log.
Qed.

#[local] Hint Resolve reads_calculate_loss_ratio reads_format_slack_response : log.

Lemma reads_set_LAST_ANALYSIS_RESULT (result : RatioResult) :
  produces (Forall reads_or_comments) (set_LAST_ANALYSIS_RESULT result).
Proof. unfold set_LAST_ANALYSIS_RESULT. auto with log. Qed.

#[local] Hint Resolve reads_set_LAST_ANALYSIS_RESULT : log.

Lemma reads_lossratio_command (env : Environment) :
  produces (Forall reads_or_comments) (lossratio_command env).
Proof.
  unfold lossratio_command.
  apply all_bind; [auto with log|]. intros st.
  apply all_bind.
  - destruct (truthy (LAST_UPLOADED_FILE st)); auto with log.
  - intros [result file_name]. auto 10 with log.
Qed.

(** Whether the Analysis command returns is up to the formatter. *)
Lemma lossratio_command_outcome (env : Environment) (s : Store) :
  exists result s1,
    calculate_loss_ratio env
      (if truthy (LAST_UPLOADED_FILE (session s))
       then LAST_UPLOADED_FILE (session s) else VNone) s = (Return result, s1) /\
    (printable result = true ->
       exists body, fst (lossratio_command env s) = Return body) /\
    (printable result = false ->
       exists e, fst (lossratio_command env s) = Raise e).
Proof.
  destruct (calculate_loss_ratio_returns env
              (if truthy (LAST_UPLOADED_FILE (session s))
               then LAST_UPLOADED_FILE (session s) else VNone) s) as [result [s1 R]].
  destruct (format_slack_response env result
              (if truthy (LAST_UPLOADED_FILE (session s))
               then LAST_UPLOADED_FILE_NAME (session s) else None) true
              (with_result {| session := session s; actions := actions s1 |} result))
    as [formatted s2] eqn:F.
  exists result, s1. split; [exact R|].
  rewrite (lossratio_command_run env s s1 s2 result formatted R F).
  destruct (format_slack_response_outcome _ _ _ _ _ _ _ F) as [P1 P2].
  split; intros P.
  - destruct (P1 P) as [response ->]. eexists. reflexivity.
  - destruct (P2 P) as [_ [e ->]]. eexists. reflexivity.
Qed.

Lemma posts_app (l1 l2 : list action) : posts (l1 ++ l2) = (posts l1 + posts l2)%nat.
Proof. unfold posts. rewrite filter_app, length_app. reflexivity. Qed.

Lemma reads_no_posts (l : list action) : Forall reads_or_comments l -> posts l = 0%nat.
Proof.
  unfold posts. induction 1 as [|a l [Ha|Ha] _ IH]; [reflexivity| |];
    destruct a; try discriminate Ha; exact IH.
Qed.

Lemma reads_no_thread (l : list action) :
  Forall reads_or_comments l -> Forall (fun a => is_thread a = false) l.
Proof.
  intros H. apply Forall_forall. rewrite Forall_forall in H.
  intros a Ha. destruct (H a Ha) as [F|F]; destruct a; try discriminate F; reflexivity.
Qed.

(** X21. The Analysis command answers in its response only: whatever
    the session and the environment, and whether the command returns or
    raises, every call it makes downloads, parses or asks for
    commentary; it posts no message to a channel and starts no thread.
    It returns when the calculator gave a failure or a success whose
    figures are numbers, and raises when a figure is a text. *)
Theorem lossratio_command_reads_only (env : Environment) (s : Store) :
  exists new,
    actions (snd (lossratio_command env s)) = (actions s ++ new)%list /\
    Forall (fun a => is_fetch a = true \/ is_completion a = true) new /\
    posts new = 0%nat /\
    Forall (fun a => is_thread a = false) new /\
    exists result s1,
      calculate_loss_ratio env
        (if truthy (LAST_UPLOADED_FILE (session s))
         then LAST_UPLOADED_FILE (session s) else VNone) s = (Return result, s1) /\
      (printable result = true ->
         exists body, fst (lossratio_command env s) = Return body) /\
      (printable result = false ->
         exists e, fst (lossratio_command env s) = Raise e).
Proof.
  destruct (reads_lossratio_command env s) as [new [E H]].
  exists new. split; [exact E|].
  split; [exact H|]. split; [|split].
  - apply reads_no_posts. exact H.
  - apply reads_no_thread. exact H.
  - apply lossratio_command_outcome.
Qed.

(** A sheet whose Claims are text under a premium total of 0 is such a
    case: the command raises, after storing the result. *)
Remark lossratio_command_text_claims :
  lossratio_command (Samples.serving Samples.text_claims) (fresh initial_session) =
    (Raise (ValueError "Unknown format code 'f' for object of type 'str'"),
     {| session :=
          {| LAST_UPLOADED_FILE := VNone;
             LAST_UPLOADED_FILE_NAME := None;
             LAST_ANALYSIS_RESULT :=
               Some (Success (Num (Int 0)) (Str "n/an/a") (Num (Int 0)) 2) |};
        actions := [ReadExcel (Path EXCEL_FILE)] |}).
Proof. reflexivity. Qed.

Lemma reads_one (l : list action) : Forall reads_or_comments l -> one_post_no_thread l.
Proof.
  intros H. split; [apply reads_no_thread; exact H|].
  rewrite (reads_no_posts l H). apply Nat.le_0_l.
Qed.

Lemma reads_app_one (l1 l2 : list action) :
  Forall reads_or_comments l1 -> one_post_no_thread l2 -> one_post_no_thread (l1 ++ l2).
Proof.
  intros H1 [T2 P2]. split.
  - apply Forall_app. split; [apply reads_no_thread; exact H1 | exact T2].
  - rewrite posts_app, (reads_no_posts l1 H1). exact P2.
Qed.

Lemma one_app_reads (l1 l2 : list action) :
  one_post_no_thread l1 -> Forall reads_or_comments l2 -> one_post_no_thread (l1 ++ l2).
Proof.
  intros [T1 P1] H2. split.
  - apply Forall_app. split; [exact T1 | apply reads_no_thread; exact H2].
  - rewrite posts_app, (reads_no_posts l2 H2), Nat.add_0_r. exact P1.
Qed.

Ltac then_one :=
  apply (produces_bind (Forall reads_or_comments) one_post_no_thread one_post_no_thread);
  [ | intros ? | exact reads_one | exact reads_app_one ].

Ltac silent := apply (produces_weaken _ _ _ reads_one); auto 10 with log.

Lemma one_send_message_to_channel (env : Environment) (channel : value)
    (result : RatioResult) (file_name : option string) (include_ai : bool) :
  produces one_post_no_thread
    (send_message_to_channel env channel result file_name include_ai).
Proof.
  unfold send_message_to_channel.
  apply (produces_try_except one_post_no_thread (Forall reads_or_comments)
           one_post_no_thread);
    [ | intros e; auto with log | auto | exact one_app_reads ].
  then_one; [auto with log|].
  apply (produces_bind one_post_no_thread (Forall reads_or_comments)
           one_post_no_thread);
    [ | intros ?; auto with log | auto | exact one_app_reads ].
  apply produces_emit. split; [repeat constructor | apply Nat.le_refl].
Qed.

Lemma one_handle_file_share (env : Environment) (event : value) :
  produces one_post_no_thread (handle_file_share env event).
Proof.
  unfold handle_file_share.
  then_one; [auto with log|].
  then_one; [auto with log|].
  then_one; [auto with log|].
  then_one; [auto with log|].
  match goal with
  | |- produces _ (match ?v with _ => _ end) => destruct v; try solve [silent]
  end.
  destruct (endswith_any _ _).
  - then_one; [unfold set_LAST_UPLOADED_FILE; auto with log|].
    then_one; [unfold set_LAST_UPLOADED_FILE_NAME; auto with log|].
    then_one; [auto with log|].
    then_one; [auto with log|].
    then_one; [auto with log|].
    apply one_send_message_to_channel.
  - then_one; [auto with log|].
    apply one_send_message_to_channel.
Qed.

(** X22. Whatever the request, and whether the handler returns or
    raises, the events endpoint hands at most one message to the chat
    service and never starts a thread. *)
Theorem slack_events_posts_at_most_once (env : Environment) (request : Request)
    (s : Store) :
  exists new,
    actions (snd (slack_events env request s)) = (actions s ++ new)%list /\
    (posts new <= 1)%nat /\
    Forall (fun a => is_thread a = false) new.
Proof.
  assert (H : produces one_post_no_thread (slack_events env request)).
  { unfold slack_events.
    then_one; [auto with log|].
    match goal with |- produces _ (if ?b then _ else _) => destruct b end;
      [silent|].
    destruct (is_retry request); [silent|].
    then_one; [auto with log|].
    then_one; [auto with log|].
    then_one.
    - match goal with |- produces _ (if ?b then _ else _) => destruct b end;
        auto with log.
    - match goal with |- produces _ (if ?b then _ else _) => destruct b end;
        [|silent].
      apply (produces_bind one_post_no_thread (Forall reads_or_comments)
               one_post_no_thread);
        [ apply one_handle_file_share | intros ?; auto with log | auto
        | exact one_app_reads ]. }
  destruct (H s) as [new [E [T P]]].
  exists new. split; [exact E|]. split; assumption.
Qed.

(** X23. The Explain command never raises and never touches the
    session; it downloads nothing, parses nothing and posts nothing,
    and starts at most one thread. *)
Theorem explain_command_frame (request : Request) (s : Store) :
  exists body new,
    explain_command request s =
      (Return body, {| session := session s; actions := actions s ++ new |}) /\
    (new = [] \/ exists question channel_id, new = [ThreadStart question channel_id]).
Proof.
  assert (E0 : s = {| session := session s; actions := actions s ++ [] |}).
  { destruct s; cbn. rewrite app_nil_r. reflexivity. }
  unfold explain_command.
  destruct (String.eqb _ _).
  - exists (ephemeral ask_a_question), []. split; [|left; reflexivity].
    unfold ret. rewrite <- E0. reflexivity.
  - unfold bind, get_session. cbn beta iota.
    destruct (LAST_ANALYSIS_RESULT (session s)) as [[p c l n | e]|].
    + eexists; eexists. split; [reflexivity|]. right. eauto.
    + exists (ephemeral no_analysis_data), []. split; [|left; reflexivity].
      unfold ret. rewrite <- E0. reflexivity.
    + exists (ephemeral no_analysis_data), []. split; [|left; reflexivity].
      unfold ret. rewrite <- E0. reflexivity.
Qed.

